(** * Smart Bookmark App: the OAuth callback route and the bookmark controller

    A shallow embedding of the code that carries behaviour:

    - the route handler [GET] of the callback endpoint [/auth/callback],
      which turns an authorization code into a session and answers with a
      redirect;
    - the client component [BookmarkClient]: its mount effect,
      [loadBookmarks], [handleSignIn], [handleSignOut], [handleAddBookmark]
      and [handleDeleteBookmark], what it renders, and sequences of user
      actions and notifications on it;
    - the two [createClient] functions, for the browser and for the server.

    The handlers are [async] functions that talk to services the repository does not
    implement (the Supabase auth, data and realtime clients, React's state
    setters, the console).  They are embedded as finite interaction trees
    ([Prog]): every call to such a service is a visible event, every [await]
    is the continuation of the event, and a run against an arbitrary
    environment gives the returned value, the final environment and the list
    of calls that were issued.  Each service call answers with a value of the
    type its TypeScript signature declares (for instance [{ error }] with
    [error : AuthError | null]).  [NextResponse.redirect] refuses a target
    that is not a valid URL; [Checked] is the route handler with that check
    and with the exception it can end in. *)

From Stdlib Require Import String List Bool ZArith.
From ExtLib Require Import Structures.Monad.
Import ListNotations.
Import MonadNotation.
Local Open Scope list_scope.
Local Open Scope monad_scope.
Local Open Scope string_scope.

Set Implicit Arguments.

(** ** Programs with visible service calls *)

Inductive Prog (E : Type -> Type) (R : Type) : Type :=
| Ret (r : R)
| Vis (X : Type) (e : E X) (k : X -> Prog E R).

Arguments Ret {E R} r.
Arguments Vis {E R X} e k.

Fixpoint pbind {E : Type -> Type} {A B : Type}
         (p : Prog E A) (f : A -> Prog E B) : Prog E B :=
  match p with
  | Ret a => f a
  | Vis e k => Vis e (fun x => pbind (k x) f)
  end.

#[export] Instance Monad_Prog (E : Type -> Type) : Monad (Prog E) :=
  {| ret := fun _ r => Ret r;
     bind := fun _ _ p f => pbind p f |}.

(** One service call, awaited. *)
Definition trigger {E : Type -> Type} {X : Type} (e : E X) : Prog E X :=
  Vis e (fun x => Ret x).

(** A call whose promise is dropped ([f();] without [await]).  Every such call
    in the source is the last statement of its caller, so the steps of the
    callee follow those of the caller and only the callee's value is lost. *)
Definition detached {E : Type -> Type} {R : Type} (p : Prog E R) : Prog E unit :=
  _ <- p ;; ret tt.

(** A call that was issued, with the type of its answer. *)
Definition Call (E : Type -> Type) : Type := { X : Type & E X }.

Definition call {E : Type -> Type} {X : Type} (e : E X) : Call E :=
  existT E X e.

Record Outcome (E : Type -> Type) (W R : Type) : Type := mkOutcome {
  value : R;
  world : W;
  calls : list (Call E)
}.

Arguments mkOutcome {E W R} value world calls.

Section Run.
Context {E : Type -> Type} {W : Type}.
Variable handle : forall X : Type, E X -> W -> X * W.

(** Runs [p] from [w], answering each call with [handle]. *)
Fixpoint run {R : Type} (p : Prog E R) (w : W) : Outcome E W R :=
  match p with
  | Ret r => mkOutcome r w []
  | Vis e k =>
      let (x, w') := handle e w in
      let o := run (k x) w' in
      mkOutcome (value o) (world o) (call e :: calls o)
  end.
End Run.

(** ** JavaScript values used by the source *)

(** Truthiness of a string: only the empty string is falsy. *)
Definition truthy (s : string) : bool :=
  match s with
  | EmptyString => false
  | String _ _ => true
  end.

(** [v ?? d]: only [null] and [undefined] are replaced. *)
Definition nullish {A : Type} (v : option A) (d : A) : A :=
  match v with
  | Some a => a
  | None => d
  end.

Notation "v ?? d" := (nullish v d) (at level 45, left associativity).

Definition is_some {A : Type} (v : option A) : bool :=
  match v with
  | Some _ => true
  | None => false
  end.

(** [URLSearchParams]: an ordered list of pairs; [get] answers the first value
    of the name, or [null]. *)
Module URLSearchParams.
Definition t : Type := list (string * string).

Fixpoint get (name : string) (ps : t) : option string :=
  match ps with
  | [] => None
  | (k, v) :: rest => if String.eqb k name then Some v else get name rest
  end.
End URLSearchParams.

(** The parts of [new URL(request.url)] that the handler reads. *)
Record URL : Type := mkURL {
  origin : string;
  searchParams : URLSearchParams.t
}.

Record Request : Type := mkRequest {
  url : URL
}.

(** A [Response] as far as a client can tell one from another. *)
Record Response : Type := mkResponse {
  status : Z;
  headers : list (string * string);
  body : option string
}.

Module NextResponse.
(** [NextResponse.redirect(url)] for a [url] that the URL parser returns as
    it is: status 307, a [Location] header, no body.  [Checked.redirect]
    covers every argument. *)
Definition redirect (target : string) : Response :=
  {| status := 307; headers := [("Location", target)]; body := None |}.
End NextResponse.

Definition location (r : Response) : option string :=
  URLSearchParams.get "Location" (headers r).

Definition is_redirect (r : Response) : bool :=
  (Z.leb 300 (status r) && Z.leb (status r) 399)
  && is_some (location r)
  && negb (is_some (body r)).

Record AuthError : Type := mkAuthError {
  auth_message : string
}.

(** ** The callback route: [app/auth/callback/route.ts] *)

Module Route.

(** Calls of the handler: [createClient()] of [lib/supabase/server] and
    [supabase.auth.exchangeCodeForSession(code)]. *)
Inductive serverE : Type -> Type :=
| CreateClient : serverE unit
| ExchangeCodeForSession (code : string) : serverE (option AuthError).

Definition error_page (o : string) : string := o ++ "/auth/auth-code-error".

Definition GET (request : Request) : Prog serverE Response :=
  let searchParams := searchParams (url request) in
  let origin := origin (url request) in
  let code := URLSearchParams.get "code" searchParams in
  let next := URLSearchParams.get "next" searchParams ?? "/" in
  returned <-
    match code with
    | Some c =>
        if truthy c then
          supabase <- trigger CreateClient ;;
          error <- trigger (ExchangeCodeForSession c) ;;
          if negb (is_some error)
          then ret (Some (NextResponse.redirect (origin ++ next)))
          else ret None
        else ret None
    | None => ret None
    end ;;
  match returned with
  | Some response => ret response
  | None => ret (NextResponse.redirect (error_page origin))
  end.

Definition is_exchange (c : Call serverE) : bool :=
  match projT2 c with
  | ExchangeCodeForSession _ => true
  | CreateClient => false
  end.

Definition exchanges (cs : list (Call serverE)) : nat :=
  List.length (List.filter is_exchange cs).

(** An identity provider: a state and its answer to an exchange. *)
Section Provider.
Variable P : Type.
Variable exchange : string -> P -> option AuthError * P.

Definition serve (X : Type) (e : serverE X) (p : P) : X * P :=
  match e in serverE T return T * P with
  | CreateClient => (tt, p)
  | ExchangeCodeForSession code => exchange code p
  end.

Definition respond (request : Request) (p : P) : Outcome serverE P Response :=
  run serve (GET request) p.
End Provider.

End Route.

(** ** The callback route with the URL check of [NextResponse.redirect]

    [NextResponse.redirect(url)] of Next.js hands its argument to [new URL]:
    it throws when the argument is not a valid absolute URL, and the
    [Location] header it sets is the normalised address, not the argument.
    [Route.GET] above is the handler for targets that the parser returns as
    they are; here the parser is explicit. *)

Module Checked.
Import Route.

(** How a call ends: with a value, or with an exception nobody catches.
    The exception carries the address that was refused. *)
Inductive Completion (R : Type) : Type :=
| Returned (r : R)
| Threw (malformed : string).

Arguments Returned {R} r.
Arguments Threw {R} malformed.

Section Parser.
(** [href target]: the normalised address [new URL(target).href], or nothing
    when [new URL(target)] throws. *)
Variable href : string -> option string.

Definition redirect (target : string) : Completion Response :=
  match href target with
  | Some normal => Returned (NextResponse.redirect normal)
  | None => Threw target
  end.

(** The same statements as [Route.GET]; an exception thrown by a [return]
    expression is how the handler ends. *)
Definition GET (request : Request) : Prog serverE (Completion Response) :=
  let searchParams := searchParams (url request) in
  let origin := origin (url request) in
  let code := URLSearchParams.get "code" searchParams in
  let next := URLSearchParams.get "next" searchParams ?? "/" in
  returned <-
    match code with
    | Some c =>
        if truthy c then
          supabase <- trigger CreateClient ;;
          error <- trigger (ExchangeCodeForSession c) ;;
          if negb (is_some error)
          then ret (Some (redirect (origin ++ next)))
          else ret None
        else ret None
    | None => ret None
    end ;;
  match returned with
  | Some completion => ret completion
  | None => ret (redirect (error_page origin))
  end.

(** The parser returns [target] as it is. *)
Definition accepts (target : string) : Prop := href target = Some target.

Definition respond (P : Type) (exchange : string -> P -> option AuthError * P)
           (request : Request) (p : P)
  : Outcome serverE P (Completion Response) :=
  run (serve exchange) (GET request) p.
End Parser.

End Checked.

(** A provider as section 4.1 of the design describes it, used to exercise the
    handler: it holds the codes it has issued and not yet redeemed, and an
    exchange redeems a code at most once. *)
Module SingleUse.
Definition t : Type := list string.

Fixpoint redeem (code : string) (issued : t) : option t :=
  match issued with
  | [] => None
  | c :: rest =>
      if String.eqb c code then Some rest
      else match redeem code rest with
           | Some rest' => Some (c :: rest')
           | None => None
           end
  end.

Definition exchange (code : string) (issued : t) : option AuthError * t :=
  match redeem code issued with
  | Some rest => (None, rest)
  | None => (Some {| auth_message := "invalid flow state" |}, issued)
  end.
End SingleUse.

(** ** The controller: [components/BookmarkClient.tsx] *)

Module User.
Record t : Type := mk {
  id : string;
  email : string
}.
End User.

Module Bookmark.
Record t : Type := mk {
  id : Z;
  url : string;
  title : string;
  user_id : string;
  created_at : option string
}.
End Bookmark.

Module Client.

Record PostgrestError : Type := mkPostgrestError {
  message : string
}.

(** [{ data, error }] of a query: either rows or an error. *)
Inductive PostgrestResponse (T : Type) : Type :=
| Success (data : T)
| Failure (error : PostgrestError).

Arguments Success {T} data.
Arguments Failure {T} error.

(** [{ data: { url }, error }] of [signInWithOAuth]. *)
Record OAuthResponse : Type := mkOAuthResponse {
  oauth_url : option string;
  oauth_error : option AuthError
}.

(** The object handed to [insert]. *)
Record NewBookmark : Type := mkNewBookmark {
  new_url : string;
  new_title : string;
  new_user_id : string
}.

(** The filter object handed to [.on("postgres_changes", ...)]. *)
Record ChangesFilter : Type := mkChangesFilter {
  event : string;
  schema : string;
  table : string;
  filter : string
}.

Inductive EventType : Type := INSERT | UPDATE | DELETE.

(** What a change notification carries. *)
Record Payload : Type := mkPayload {
  eventType : EventType;
  new_row : option Bookmark.t;
  old_row : option Bookmark.t
}.

Definition Channel : Type := nat.

(** Everything the component calls: the Supabase client, React's state
    setters, the closure variable [mounted] of the effect, the console and
    the window. *)
#[warnings="-register-all"]
Inductive clientE : Type -> Type :=
| GetUser : clientE (option User.t)
| SignInWithOAuth (provider redirectTo : string) : clientE OAuthResponse
| SignOut : clientE (option AuthError)
| Select (from columns order : string) (ascending : bool)
    : clientE (PostgrestResponse (list Bookmark.t))
| Insert (from : string) (row : NewBookmark) : clientE (option PostgrestError)
| Delete (from column : string) (id : Z) : clientE (option PostgrestError)
| Subscribe (name kind : string) (f : ChangesFilter)
    (callback : Payload -> Prog clientE unit)
    (onStatus : string -> Prog clientE unit) : clientE Channel
| RemoveChannel (channel : Channel) : clientE unit
| SetUser (u : option User.t) : clientE unit
| SetBookmarks (l : list Bookmark.t) : clientE unit
| SetUrl (s : string) : clientE unit
| SetTitle (s : string) : clientE unit
| SetLoading (b : bool) : clientE unit
| SetErrorMsg (m : option string) : clientE unit
| ReadMounted : clientE bool
| WriteMounted (b : bool) : clientE unit
| ConsoleError (label detail : string) : clientE unit
| ConsoleLog (line : string) : clientE unit
| PreventDefault : clientE unit
| LocationOrigin : clientE string
| SetLocationHref (href : string) : clientE unit.

(** The [useState] cells of the component. *)
Record State : Type := mkState {
  user : option User.t;
  bookmarks : list Bookmark.t;
  url : string;
  title : string;
  loading : bool;
  errorMsg : option string
}.

Definition initial : State :=
  {| user := None; bookmarks := []; url := ""; title := "";
     loading := true; errorMsg := None |}.

Definition loadBookmarks : Prog clientE unit :=
  trigger (SetErrorMsg None) ;;
  response <- trigger (Select "bookmarks" "id, url, title, user_id, created_at"
                              "created_at" false) ;;
  match response with
  | Success data => trigger (SetBookmarks data)
  | Failure error =>
      trigger (ConsoleError "Error fetching bookmarks" (message error)) ;;
      trigger (SetErrorMsg (Some ("Failed to load bookmarks: " ++ message error)))
  end ;;
  trigger (SetLoading false).

(** The two callbacks of the subscription. *)
Definition onChange (payload : Payload) : Prog clientE unit :=
  detached loadBookmarks.

Definition onStatus (status : string) : Prog clientE unit :=
  if String.eqb status "SUBSCRIBED"
  then trigger (ConsoleLog "Realtime subscribed")
  else ret tt.

Definition changes_of (u : User.t) : ChangesFilter :=
  {| event := "*"; schema := "public"; table := "bookmarks";
     filter := "user_id=eq." ++ User.id u |}.

(** [init] of the mount effect.  Its value is what the [async] function
    returns: the closure that removes the channel, or nothing. *)
Definition init : Prog clientE (option (Prog clientE unit)) :=
  user <- trigger GetUser ;;
  mounted <- trigger ReadMounted ;;
  if (mounted : bool) then
    trigger (SetUser user) ;;
    match user with
    | Some u =>
        loadBookmarks ;;
        channel <- trigger (Subscribe "bookmarks_changes" "postgres_changes"
                                      (changes_of u) onChange onStatus) ;;
        ret (Some (trigger (RemoveChannel channel)))
    | None =>
        trigger (SetLoading false) ;;
        ret None
    end
  else ret None.

(** The callback given to [useEffect(..., [])]: what it does when the
    component mounts, and the function it returns, which React calls when
    the component unmounts.  [init()] is not awaited and its value is
    dropped. *)
Record Effect : Type := mkEffect {
  setup : Prog clientE unit;
  cleanup : Prog clientE unit
}.

Definition effect : Effect :=
  {| setup := trigger (WriteMounted true) ;; detached init;
     cleanup := trigger (WriteMounted false) |}.

Definition handleSignIn : Prog clientE unit :=
  origin <- trigger LocationOrigin ;;
  response <- trigger (SignInWithOAuth "google" (origin ++ "/auth/callback")) ;;
  match oauth_error response with
  | Some error =>
      trigger (ConsoleError "Error signing in" (auth_message error)) ;;
      trigger (SetErrorMsg (Some (auth_message error)))
  | None =>
      match oauth_url response with
      | Some href => if truthy href then trigger (SetLocationHref href) else ret tt
      | None => ret tt
      end
  end.

Definition handleSignOut : Prog clientE unit :=
  _ <- trigger SignOut ;;
  trigger (SetUser None) ;;
  trigger (SetBookmarks []).

(** [s] is the render the handler was created in: it reads [url], [title]
    and [user] from there. *)
Definition handleAddBookmark (s : State) : Prog clientE unit :=
  trigger PreventDefault ;;
  if negb (truthy (url s)) || negb (truthy (title s)) || negb (is_some (user s))
  then ret tt
  else
    match user s with
    | None => ret tt
    | Some u =>
        trigger (SetErrorMsg None) ;;
        error <- trigger (Insert "bookmarks"
                                 {| new_url := url s; new_title := title s;
                                    new_user_id := User.id u |}) ;;
        match error with
        | Some error =>
            trigger (ConsoleError "Error adding bookmark" (message error)) ;;
            trigger (SetErrorMsg (Some ("Error adding bookmark: " ++ message error)))
        | None =>
            trigger (SetUrl "") ;;
            trigger (SetTitle "") ;;
            detached loadBookmarks
        end
    end.

Definition handleDeleteBookmark (id : Z) : Prog clientE unit :=
  error <- trigger (Delete "bookmarks" "id" id) ;;
  match error with
  | Some error =>
      trigger (ConsoleError "Error deleting bookmark" (message error)) ;;
      trigger (SetErrorMsg (Some ("Error deleting bookmark: " ++ message error)))
  | None => detached loadBookmarks
  end.

End Client.

(** ** The environment of the controller *)

Module Env.
Import Client.

(** A subscription the realtime client holds. *)
Record Subscription : Type := mkSubscription {
  sub_name : string;
  sub_kind : string;
  sub_filter : ChangesFilter;
  sub_callback : Payload -> Prog clientE unit;
  sub_status : string -> Prog clientE unit
}.

(** The remote side: a state [B] and its answers to the Supabase calls. *)
Record Services (B : Type) : Type := mkServices {
  getUser : B -> option User.t * B;
  signInWithOAuth : string -> string -> B -> OAuthResponse * B;
  signOut : B -> option AuthError * B;
  select : string -> string -> string -> bool -> B
           -> PostgrestResponse (list Bookmark.t) * B;
  insert : string -> NewBookmark -> B -> option PostgrestError * B;
  delete : string -> string -> Z -> B -> option PostgrestError * B
}.

Record World (B : Type) : Type := mkWorld {
  state : State;
  mounted : bool;
  channels : list (Channel * Subscription);
  opened : nat;
  href : option string;
  window_origin : string;
  backend : B
}.

Section Handle.
Variable B : Type.
Variable sv : Services B.

Definition with_state (w : World B) (s : State) : World B :=
  {| state := s; mounted := mounted w; channels := channels w;
     opened := opened w; href := href w;
     window_origin := window_origin w; backend := backend w |}.

Definition with_backend (w : World B) (b : B) : World B :=
  {| state := state w; mounted := mounted w; channels := channels w;
     opened := opened w; href := href w;
     window_origin := window_origin w; backend := b |}.

Definition with_mounted (w : World B) (m : bool) : World B :=
  {| state := state w; mounted := m; channels := channels w;
     opened := opened w; href := href w;
     window_origin := window_origin w; backend := backend w |}.

Definition with_href (w : World B) (h : string) : World B :=
  {| state := state w; mounted := mounted w; channels := channels w;
     opened := opened w; href := Some h;
     window_origin := window_origin w; backend := backend w |}.

Definition subscribe (w : World B) (s : Subscription) : Channel * World B :=
  (opened w,
   {| state := state w; mounted := mounted w;
      channels := (channels w ++ [(opened w, s)])%list;
      opened := S (opened w); href := href w;
      window_origin := window_origin w; backend := backend w |}).

Definition removeChannel (w : World B) (c : Channel) : World B :=
  {| state := state w; mounted := mounted w;
     channels := List.filter (fun cs => negb (Nat.eqb (fst cs) c)) (channels w);
     opened := opened w; href := href w;
     window_origin := window_origin w; backend := backend w |}.

Definition answered {X : Type} (w : World B) (r : X * B) : X * World B :=
  (fst r, with_backend w (snd r)).

Definition handle (X : Type) (e : clientE X) (w : World B) : X * World B :=
  let s := state w in
  match e in clientE T return T * World B with
  | GetUser => answered w (getUser sv (backend w))
  | SignInWithOAuth provider redirectTo =>
      answered w (signInWithOAuth sv provider redirectTo (backend w))
  | SignOut => answered w (signOut sv (backend w))
  | Select from columns order ascending =>
      answered w (select sv from columns order ascending (backend w))
  | Insert from row => answered w (insert sv from row (backend w))
  | Delete from column id => answered w (delete sv from column id (backend w))
  | Subscribe name kind f callback status =>
      subscribe w {| sub_name := name; sub_kind := kind; sub_filter := f;
                     sub_callback := callback; sub_status := status |}
  | RemoveChannel c => (tt, removeChannel w c)
  | SetUser u =>
      (tt, with_state w {| user := u; bookmarks := bookmarks s; url := url s;
                           title := title s; loading := loading s;
                           errorMsg := errorMsg s |})
  | SetBookmarks l =>
      (tt, with_state w {| user := user s; bookmarks := l; url := url s;
                           title := title s; loading := loading s;
                           errorMsg := errorMsg s |})
  | SetUrl v =>
      (tt, with_state w {| user := user s; bookmarks := bookmarks s; url := v;
                           title := title s; loading := loading s;
                           errorMsg := errorMsg s |})
  | SetTitle v =>
      (tt, with_state w {| user := user s; bookmarks := bookmarks s; url := url s;
                           title := v; loading := loading s;
                           errorMsg := errorMsg s |})
  | SetLoading b =>
      (tt, with_state w {| user := user s; bookmarks := bookmarks s; url := url s;
                           title := title s; loading := b;
                           errorMsg := errorMsg s |})
  | SetErrorMsg m =>
      (tt, with_state w {| user := user s; bookmarks := bookmarks s; url := url s;
                           title := title s; loading := loading s;
                           errorMsg := m |})
  | ReadMounted => (mounted w, w)
  | WriteMounted m => (tt, with_mounted w m)
  | ConsoleError _ _ => (tt, w)
  | ConsoleLog _ => (tt, w)
  | PreventDefault => (tt, w)
  | LocationOrigin => (window_origin w, w)
  | SetLocationHref h => (tt, with_href w h)
  end.

Definition exec {R : Type} (p : Prog clientE R) (w : World B)
  : Outcome clientE (World B) R :=
  run handle p w.

(** The component mounts: React runs the effect. *)
Definition mount (w : World B) : Outcome clientE (World B) unit :=
  exec (setup effect) w.

(** The component unmounts: React runs what the effect returned. *)
Definition unmount (w : World B) : Outcome clientE (World B) unit :=
  exec (cleanup effect) w.

(** A change notification reaches a subscription. *)
Definition deliver (payload : Payload) (s : Subscription) (w : World B)
  : Outcome clientE (World B) unit :=
  exec (sub_callback s payload) w.
End Handle.

(** Kinds of calls. *)
Definition is_insert (c : Call clientE) : bool :=
  match projT2 c with Insert _ _ => true | _ => false end.

Definition is_select (c : Call clientE) : bool :=
  match projT2 c with Select _ _ _ _ => true | _ => false end.

Definition is_subscribe (c : Call clientE) : bool :=
  match projT2 c with Subscribe _ _ _ _ _ => true | _ => false end.

Definition is_removeChannel (c : Call clientE) : bool :=
  match projT2 c with RemoveChannel _ => true | _ => false end.

(** Calls that leave the browser for Supabase. *)
Definition is_remote (c : Call clientE) : bool :=
  match projT2 c with
  | GetUser | SignInWithOAuth _ _ | SignOut
  | Select _ _ _ _ | Insert _ _ | Delete _ _ _
  | Subscribe _ _ _ _ _ | RemoveChannel _ => true
  | _ => false
  end.

Definition count (f : Call clientE -> bool) (cs : list (Call clientE)) : nat :=
  List.length (List.filter f cs).

(** The query of [loadBookmarks]. *)
Definition list_query : clientE (PostgrestResponse (list Bookmark.t)) :=
  Select "bookmarks" "id, url, title, user_id, created_at" "created_at" false.

(** A remote side that gives the same answers every time. *)
Record Script : Type := mkScript {
  script_user : option User.t;
  script_oauth : OAuthResponse;
  script_signOut : option AuthError;
  script_rows : PostgrestResponse (list Bookmark.t);
  script_insert : option PostgrestError;
  script_delete : option PostgrestError
}.

Definition scripted : Services Script :=
  {| getUser := fun b => (script_user b, b);
     signInWithOAuth := fun _ _ b => (script_oauth b, b);
     signOut := fun b => (script_signOut b, b);
     select := fun _ _ _ _ b => (script_rows b, b);
     insert := fun _ _ b => (script_insert b, b);
     delete := fun _ _ _ b => (script_delete b, b) |}.

Definition fresh (s : State) (b : Script) : World Script :=
  {| state := s; mounted := false; channels := []; opened := 0;
     href := None; window_origin := "https://bookmarks.example"; backend := b |}.
End Env.

(** ** Statements and sample data *)

Module Claims.
Import Route.

Definition next_of (request : Request) : string :=
  URLSearchParams.get "next" (searchParams (url request)) ?? "/".

Definition code_of (request : Request) : option string :=
  URLSearchParams.get "code" (searchParams (url request)).

Definition destination (request : Request) : string :=
  origin (url request) ++ next_of request.

Definition failure (request : Request) : string :=
  error_page (origin (url request)).

(** What a request with a code is answered, in terms of the provider's
    answer to the exchange of that code. *)
Definition exchanged_once (P : Type)
           (exchange : string -> P -> option AuthError * P)
           (request : Request) (p : P) (c : string) : Prop :=
  let o := respond exchange request p in
  exchanges (calls o) = 1
  /\ List.In (call (ExchangeCodeForSession c)) (calls o)
  /\ match fst (exchange c p) with
     | None => value o = NextResponse.redirect (destination request)
     | Some _ => value o = NextResponse.redirect (failure request)
     end.

(** "Every request carrying a code parameter is exchanged exactly once." *)
Definition every_code_is_exchanged : Prop :=
  forall (P : Type) (exchange : string -> P -> option AuthError * P)
         (request : Request) (p : P) (c : string),
    code_of request = Some c ->
    exchanged_once exchange request p c.

Definition get_request (o : string) (ps : URLSearchParams.t) : Request :=
  {| url := {| origin := o; searchParams := ps |} |}.

(** A provider that accepts every code. *)
Definition accept_all (code : string) (p : unit) : option AuthError * unit :=
  (None, p).

Definition alice : User.t :=
  {| User.id := "7c9e6679"; User.email := "alice@example.com" |}.

Definition rocq_site : Bookmark.t :=
  {| Bookmark.id := 2; Bookmark.url := "https://rocq-prover.org";
     Bookmark.title := "Rocq"; Bookmark.user_id := "7c9e6679";
     Bookmark.created_at := Some "2024-05-02T10:00:00Z" |}.

Definition next_site : Bookmark.t :=
  {| Bookmark.id := 1; Bookmark.url := "https://nextjs.org";
     Bookmark.title := "Next.js"; Bookmark.user_id := "7c9e6679";
     Bookmark.created_at := Some "2024-05-01T09:30:00Z" |}.

Definition denied : Client.PostgrestError :=
  {| Client.message := "new row violates row-level security policy" |}.

Definition healthy : Env.Script :=
  {| Env.script_user := Some alice;
     Env.script_oauth := {| Client.oauth_url := Some "https://accounts.example/o/oauth2";
                            Client.oauth_error := None |};
     Env.script_signOut := None;
     Env.script_rows := Client.Success [rocq_site; next_site];
     Env.script_insert := None;
     Env.script_delete := None |}.

Definition rejecting : Env.Script :=
  {| Env.script_user := Some alice;
     Env.script_oauth := {| Client.oauth_url := None;
                            Client.oauth_error := Some {| auth_message := "provider is disabled" |} |};
     Env.script_signOut := Some {| auth_message := "network request failed" |};
     Env.script_rows := Client.Success [rocq_site; next_site];
     Env.script_insert := Some denied;
     Env.script_delete := Some denied |}.

Definition typing (u : option User.t) (l : list Bookmark.t) (address name : string)
  : Client.State :=
  {| Client.user := u; Client.bookmarks := l; Client.url := address;
     Client.title := name; Client.loading := false; Client.errorMsg := None |}.
End Claims.

(** ** What the component renders *)

Module Page.
Import Client.

(** [strip p s]: what follows [p] in [s] when [s] starts with [p]. *)
Fixpoint strip (p s : string) : option string :=
  match p with
  | EmptyString => Some s
  | String a p' =>
      match s with
      | EmptyString => None
      | String b s' => if Ascii.eqb a b then strip p' s' else None
      end
  end.

(** [bm.url.replace(/^https?:\/\//, '')]: the pattern is anchored at the start
    and has no [g] flag, so at most one leading [http://] or [https://] is
    removed; it is case sensitive. *)
Definition displayUrl (u : string) : string :=
  match strip "https://" u with
  | Some rest => rest
  | None =>
      match strip "http://" u with
      | Some rest => rest
      | None => u
      end
  end.

(** One [<li>] of the grid.  [added] is the timestamp handed to [new Date];
    its formatting is the browser's.  [onDelete] is the click handler of the
    delete button. *)
Record Card : Type := mkCard {
  key : Z;
  href : string;
  heading : string;
  caption : string;
  added : option string;
  onDelete : Prog clientE unit
}.

Definition card (bm : Bookmark.t) : Card :=
  {| key := Bookmark.id bm;
     href := Bookmark.url bm;
     heading := Bookmark.title bm;
     caption := displayUrl (Bookmark.url bm);
     added := Bookmark.created_at bm;
     onDelete := trigger PreventDefault ;;
                 detached (handleDeleteBookmark (Bookmark.id bm)) |}.

Inductive Listing : Type :=
| EmptyState
| Grid (cards : list Card).

(** The add-bookmark form: the two controlled inputs and the submit handler. *)
Record Form : Type := mkForm {
  url_value : string;
  onUrlChange : string -> Prog clientE unit;
  title_value : string;
  onTitleChange : string -> Prog clientE unit;
  onSubmit : Prog clientE unit
}.

Inductive View : Type :=
| Spinner
| SignInPage (onClick : Prog clientE unit) (alert : option string)
| Dashboard (email : string) (onSignOut : Prog clientE unit)
            (alert : option string) (form : Form) (listing : Listing).

(** [{errorMsg && <div>...</div>}]: nothing is shown for [null] and for the
    empty string. *)
Definition alert_of (m : option string) : option string :=
  match m with
  | Some text => if truthy text then Some text else None
  | None => None
  end.

(** The three [return]s of the component, for the render with state [s]. *)
Definition render (s : State) : View :=
  if loading s then Spinner
  else
    match user s with
    | None => SignInPage handleSignIn (alert_of (errorMsg s))
    | Some u =>
        Dashboard (User.email u) handleSignOut (alert_of (errorMsg s))
                  {| url_value := url s;
                     onUrlChange := fun v => trigger (SetUrl v);
                     title_value := title s;
                     onTitleChange := fun v => trigger (SetTitle v);
                     onSubmit := handleAddBookmark s |}
                  (if Nat.eqb (List.length (bookmarks s)) 0
                   then EmptyState
                   else Grid (List.map card (bookmarks s)))
    end.
End Page.

(** ** The two [createClient] functions *)

Module Supabase.

(** [process.env]. *)
Definition ProcessEnv : Type := string -> option string.

(** The cookie store of the request, as [cookies()] of [next/headers] gives
    it, with options of type [O]. *)
Record RequestCookie : Type := mkRequestCookie {
  cookie_name : string;
  cookie_value : string
}.

Record ResponseCookie (O : Type) : Type := mkResponseCookie {
  set_name : string;
  set_value : string;
  set_options : O
}.

Inductive cookieE (O : Type) : Type -> Type :=
| CookieGet (name : string) : cookieE O (option RequestCookie)
| CookieSet (c : ResponseCookie O) : cookieE O unit
| CookieDelete (name : string) (options : O) : cookieE O unit.

Arguments CookieGet {O} name.
Arguments CookieSet {O} c.
Arguments CookieDelete {O} name options.

(** The [cookies] object handed to [createServerClient]. *)
Record CookieMethods (O : Type) : Type := mkCookieMethods {
  get : string -> Prog (cookieE O) (option string);
  set : string -> string -> O -> Prog (cookieE O) unit;
  remove : string -> O -> Prog (cookieE O) unit
}.

(** The arguments a client is built from.  [process.env.X!] asserts nothing
    at run time: an unset variable arrives as [undefined]. *)
Record BrowserClient : Type := mkBrowserClient {
  browser_url : option string;
  browser_key : option string
}.

Record ServerClient (O : Type) : Type := mkServerClient {
  server_url : option string;
  server_key : option string;
  server_cookies : CookieMethods O
}.

Module Browser.
Definition createClient (env : ProcessEnv) : BrowserClient :=
  {| browser_url := env "NEXT_PUBLIC_SUPABASE_URL";
     browser_key := env "NEXT_PUBLIC_SUPABASE_ANON_KEY" |}.
End Browser.

Module Server.
Definition createClient (O : Type) (env : ProcessEnv) : ServerClient O :=
  {| server_url := env "NEXT_PUBLIC_SUPABASE_URL";
     server_key := env "NEXT_PUBLIC_SUPABASE_ANON_KEY";
     server_cookies :=
       {| get := fun name =>
                   found <- trigger (CookieGet name) ;;
                   ret (option_map cookie_value found);
          set := fun name value options =>
                   trigger (CookieSet {| set_name := name; set_value := value;
                                         set_options := options |});
          remove := fun name options =>
                      trigger (CookieDelete name options) |} |}.
End Server.

End Supabase.

(** ** Sessions: the component driven by its user and by the realtime client *)

Module Session.
Import Client Env Page.

(** What can happen to a component instance.  Each action runs to its end
    before the next one starts. *)
Inductive Action : Type :=
| Mount
| Unmount
| ClickSignIn
| ClickSignOut
| TypeUrl (text : string)
| TypeTitle (text : string)
| Submit
| ClickDelete (id : Z)
| Notify (payload : Payload).

(** The realtime client calls the callback of every open channel. *)
Fixpoint broadcast (payload : Payload) (subs : list (Channel * Subscription))
  : Prog clientE unit :=
  match subs with
  | [] => ret tt
  | (_, s) :: rest => sub_callback s payload ;; broadcast payload rest
  end.

(** The handler the current render attaches to a user action, if the render
    offers that action at all. *)
Definition handler_of (a : Action) (v : View) : option (Prog clientE unit) :=
  match a, v with
  | ClickSignIn, SignInPage onClick _ => Some onClick
  | ClickSignOut, Dashboard _ onSignOut _ _ _ => Some onSignOut
  | TypeUrl text, Dashboard _ _ _ form _ => Some (onUrlChange form text)
  | TypeTitle text, Dashboard _ _ _ form _ => Some (onTitleChange form text)
  | Submit, Dashboard _ _ _ form _ => Some (onSubmit form)
  | ClickDelete id, Dashboard _ _ _ _ (Grid cards) =>
      option_map onDelete (List.find (fun c => Z.eqb (key c) id) cards)
  | _, _ => None
  end.

(** The program an action runs in environment [w].  A page that is not
    mounted offers nothing to click. *)
Definition program_of (B : Type) (a : Action) (w : World B) : Prog clientE unit :=
  match a with
  | Mount => setup effect
  | Unmount => cleanup effect
  | Notify payload => broadcast payload (channels w)
  | _ =>
      if mounted w then
        match handler_of a (render (state w)) with
        | Some handler => handler
        | None => ret tt
        end
      else ret tt
  end.

Section Perform.
Variable B : Type.
Variable sv : Services B.

(** A component that mounts starts from the initial values of its
    [useState] cells. *)
Definition arrive (a : Action) (w : World B) : World B :=
  match a with
  | Mount => with_state w initial
  | _ => w
  end.

Definition perform (a : Action) (w : World B) : Outcome clientE (World B) unit :=
  exec sv (program_of a w) (arrive a w).

(** A sequence of actions: the final environment and all the calls made. *)
Fixpoint session (actions : list Action) (w : World B)
  : Outcome clientE (World B) unit :=
  match actions with
  | [] => mkOutcome tt w []
  | a :: rest =>
      let o := perform a w in
      let o' := session rest (world o) in
      mkOutcome tt (world o') (calls o ++ calls o')%list
  end.
End Perform.

(** The remote calls of a list of calls, by kind. *)
Inductive Remote : Type :=
| RGetUser | RSignInWithOAuth | RSignOut
| RSelect | RInsert | RDelete
| RSubscribe | RRemoveChannel.

Definition remote_kind (c : Call clientE) : option Remote :=
  match projT2 c with
  | GetUser => Some RGetUser
  | SignInWithOAuth _ _ => Some RSignInWithOAuth
  | SignOut => Some RSignOut
  | Select _ _ _ _ => Some RSelect
  | Insert _ _ => Some RInsert
  | Delete _ _ _ => Some RDelete
  | Subscribe _ _ _ _ _ => Some RSubscribe
  | RemoveChannel _ => Some RRemoveChannel
  | _ => None
  end.

Fixpoint remote_kinds (cs : list (Call clientE)) : list Remote :=
  match cs with
  | [] => []
  | c :: rest =>
      match remote_kind c with
      | Some k => k :: remote_kinds rest
      | None => remote_kinds rest
      end
  end.

Definition is_channel_op (c : Call clientE) : bool :=
  is_subscribe c || is_removeChannel c.

Definition is_setUser (c : Call clientE) : bool :=
  match projT2 c with SetUser _ => true | _ => false end.

Definition is_delete (c : Call clientE) : bool :=
  match projT2 c with Delete _ _ _ => true | _ => false end.

(** The rows handed to [insert] and the ids handed to [delete]. *)
Definition inserted_row (c : Call clientE) : option NewBookmark :=
  match projT2 c with
  | Insert _ row => Some row
  | _ => None
  end.

Definition deleted_id (c : Call clientE) : option Z :=
  match projT2 c with
  | Delete _ _ id => Some id
  | _ => None
  end.

Fixpoint collect {A : Type} (f : Call clientE -> option A) (cs : list (Call clientE))
  : list A :=
  match cs with
  | [] => []
  | c :: rest =>
      match f c with
      | Some a => a :: collect f rest
      | None => collect f rest
      end
  end.
(** The environment after a successful insert, before the list is fetched
    again, and after a rejected one. *)
Definition after_insert (B : Type) (w : World B) (b : B) : World B :=
  with_state (with_backend w b)
             {| user := user (state w); bookmarks := bookmarks (state w);
                url := ""; title := ""; loading := loading (state w);
                errorMsg := None |}.

Definition after_rejection (B : Type) (w : World B) (b : B) (text : string)
  : World B :=
  with_state (with_backend w b)
             {| user := user (state w); bookmarks := bookmarks (state w);
                url := url (state w); title := title (state w);
                loading := loading (state w); errorMsg := Some text |}.

(** The row [handleAddBookmark] hands to [insert] in the render with
    state [s], for user [u]. *)
Definition row_of (s : State) (u : User.t) : NewBookmark :=
  {| new_url := url s; new_title := title s; new_user_id := User.id u |}.

(** The subscription the mount effect opens for user [u]. *)
Definition subscription_of (u : User.t) : Subscription :=
  {| sub_name := "bookmarks_changes"; sub_kind := "postgres_changes";
     sub_filter := changes_of u; sub_callback := onChange;
     sub_status := onStatus |}.

(** Parts of a view. *)
Definition listing_of (v : View) : option Listing :=
  match v with
  | Dashboard _ _ _ _ listing => Some listing
  | _ => None
  end.

Definition alert_in (v : View) : option string :=
  match v with
  | Spinner => None
  | SignInPage _ alert => alert
  | Dashboard _ _ alert _ _ => alert
  end.

Definition is_signInPage (v : View) : bool :=
  match v with
  | SignInPage _ _ => true
  | _ => false
  end.

Definition is_mount (a : Action) : bool :=
  match a with
  | Mount => true
  | _ => false
  end.

(** Every open channel was opened by the mount effect: its callback is
    [onChange]. *)
Definition reloading (subs : list (Channel * Subscription)) : Prop :=
  List.Forall (fun cs => sub_callback (snd cs) = onChange) subs.

End Session.

(** More sample data. *)
Module Samples.
Import Client Env Claims.

(** Nobody is signed in. *)
Definition anonymous : Script :=
  {| script_user := None;
     script_oauth := {| oauth_url := Some "https://accounts.example/o/oauth2";
                        oauth_error := None |};
     script_signOut := None;
     script_rows := Success [];
     script_insert := None;
     script_delete := None |}.

(** Alice is signed in and the list query fails. *)
Definition offline : Script :=
  {| script_user := Some alice;
     script_oauth := {| oauth_url := None; oauth_error := None |};
     script_signOut := None;
     script_rows := Failure {| message := "fetch failed" |};
     script_insert := None;
     script_delete := None |}.

(** The dashboard of Alice, shown, with [address] and [name] typed in. *)
Definition dashboard (l : list Bookmark.t) (address name : string) (b : Script)
  : World Script :=
  with_mounted (fresh (typing (Some alice) l address name) b) true.

(** A remote side on which Alice is signed in whatever happens; its other
    answers are those of the script. *)
Definition signed_in : Services Script :=
  {| getUser := fun b => (Some alice, b);
     signInWithOAuth := signInWithOAuth scripted;
     signOut := signOut scripted;
     select := select scripted;
     insert := insert scripted;
     delete := delete scripted |}.

(** The URL parser on the addresses of the samples: a port that is not made
    of digits is refused, an address without a path gets the path [/], and
    the other addresses of the samples are returned as they are. *)
Definition sample_href (target : string) : option string :=
  if String.eqb target "https://bookmarks.example:x" then None
  else if String.eqb target "https://bookmarks.example"
       then Some "https://bookmarks.example/"
       else Some target.
End Samples.

(** A program none of whose calls satisfies [bad], whatever it is answered. *)
Inductive Avoids (E : Type -> Type) (bad : Call E -> bool) (R : Type)
  : Prog E R -> Prop :=
| AvoidsRet (r : R) : Avoids bad (Ret r)
| AvoidsVis (X : Type) (e : E X) (k : X -> Prog E R) :
    bad (call e) = false ->
    (forall x : X, Avoids bad (k x)) ->
    Avoids bad (Vis e k).

(** ** The callback route *)

Section RouteFacts.
Import Route Claims.
Variable P : Type.
Variable exchange : string -> P -> option AuthError * P.

Lemma respond_no_code (request : Request) (p : P) :
  code_of request = None ->
  respond exchange request p
  = mkOutcome (NextResponse.redirect (failure request)) p [].
Proof.
  unfold code_of, respond, GET. intros ->. reflexivity.
Qed.

Lemma respond_empty_code (request : Request) (p : P) :
  code_of request = Some "" ->
  respond exchange request p
  = mkOutcome (NextResponse.redirect (failure request)) p [].
Proof.
  unfold code_of, respond, GET. intros ->. reflexivity.
Qed.

Lemma respond_code (request : Request) (p : P) (c : string) :
  code_of request = Some c ->
  truthy c = true ->
  respond exchange request p
  = mkOutcome
      (match fst (exchange c p) with
       | None => NextResponse.redirect (destination request)
       | Some _ => NextResponse.redirect (failure request)
       end)
      (snd (exchange c p))
      [call CreateClient; call (ExchangeCodeForSession c)].
Proof.
  unfold code_of, respond, GET. intros -> ->. cbn.
  destruct (exchange c p) as [[e|] p']; reflexivity.
Qed.

Lemma redirect_is_redirect (target : string) :
  is_redirect (NextResponse.redirect target) = true.
Proof. reflexivity. Qed.
End RouteFacts.

Section RouteExamples.
Import Route Claims.

Example GET_code_and_next :
  value (respond accept_all
                 (get_request "https://bookmarks.example"
                              [("code", "4/0AfJohX"); ("next", "/dashboard")]) tt)
  = NextResponse.redirect "https://bookmarks.example/dashboard".
Proof. reflexivity. Qed.

Example GET_code_without_next :
  location (value (respond accept_all
                           (get_request "https://bookmarks.example"
                                        [("code", "4/0AfJohX")]) tt))
  = Some "https://bookmarks.example/".
Proof. reflexivity. Qed.

Example GET_unknown_code :
  respond SingleUse.exchange
          (get_request "https://bookmarks.example" [("code", "stale")])
          ["4/0AfJohX"]
  = mkOutcome (NextResponse.redirect "https://bookmarks.example/auth/auth-code-error")
              ["4/0AfJohX"]
              [call CreateClient; call (ExchangeCodeForSession "stale")].
Proof. reflexivity. Qed.

Example GET_first_code_is_read :
  calls (respond accept_all
                 (get_request "https://bookmarks.example"
                              [("code", ""); ("code", "4/0AfJohX")]) tt)
  = [].
Proof. reflexivity. Qed.
End RouteExamples.

(** ** The callback route with the URL check *)

Section CheckedFacts.
Import Route Claims.
Variable href : string -> option string.
Variable P : Type.
Variable exchange : string -> P -> option AuthError * P.

Lemma checked_no_code (request : Request) (p : P) :
  code_of request = None ->
  Checked.respond href exchange request p
  = mkOutcome (Checked.redirect href (failure request)) p [].
Proof.
  unfold code_of, Checked.respond, Checked.GET. intros ->. reflexivity.
Qed.

Lemma checked_empty_code (request : Request) (p : P) :
  code_of request = Some "" ->
  Checked.respond href exchange request p
  = mkOutcome (Checked.redirect href (failure request)) p [].
Proof.
  unfold code_of, Checked.respond, Checked.GET. intros ->. reflexivity.
Qed.

Lemma checked_code (request : Request) (p : P) (c : string) :
  code_of request = Some c ->
  truthy c = true ->
  Checked.respond href exchange request p
  = mkOutcome
      (match fst (exchange c p) with
       | None => Checked.redirect href (destination request)
       | Some _ => Checked.redirect href (failure request)
       end)
      (snd (exchange c p))
      [call CreateClient; call (ExchangeCodeForSession c)].
Proof.
  unfold code_of, Checked.respond, Checked.GET. intros -> ->. cbn.
  destruct (exchange c p) as [[e|] p']; reflexivity.
Qed.

(** When the parser returns both possible targets as they are, the handler
    ends as [Route.GET] does. *)
Lemma checked_agrees (request : Request) (p : P) :
  Checked.accepts href (destination request) ->
  Checked.accepts href (failure request) ->
  Checked.respond href exchange request p
  = mkOutcome (Checked.Returned (value (respond exchange request p)))
              (world (respond exchange request p))
              (calls (respond exchange request p)).
Proof.
  unfold Checked.accepts. intros Hdest Hfail.
  destruct (code_of request) as [c|] eqn:Hcode.
  - destruct c as [|a c'].
    + rewrite (checked_empty_code request p Hcode).
      rewrite (respond_empty_code exchange request p Hcode).
      unfold Checked.redirect. rewrite Hfail. reflexivity.
    + rewrite (checked_code request p Hcode eq_refl).
      rewrite (respond_code exchange request p Hcode eq_refl).
      unfold Checked.redirect. rewrite Hdest, Hfail. cbn.
      destruct (fst (exchange (String a c') p)); reflexivity.
  - rewrite (checked_no_code request p Hcode).
    rewrite (respond_no_code exchange request p Hcode).
    unfold Checked.redirect. rewrite Hfail. reflexivity.
Qed.
End CheckedFacts.

(** Replay against a provider whose codes are single-use. *)
Section Replay.
Import Route Claims.

Lemma redeem_unknown (c : string) (issued : SingleUse.t) :
  ~ List.In c issued -> SingleUse.redeem c issued = None.
Proof.
  induction issued as [|d rest IH]; intros Hnot; cbn; [reflexivity|].
  destruct (String.eqb_spec d c) as [Heq | Hne].
  - exfalso. apply Hnot. left. exact Heq.
  - rewrite IH; [reflexivity|]. intros Hin. apply Hnot. right. exact Hin.
Qed.

Lemma redeem_known (c : string) (issued : SingleUse.t) :
  List.NoDup issued ->
  List.In c issued ->
  exists rest, SingleUse.redeem c issued = Some rest /\ ~ List.In c rest.
Proof.
  induction issued as [|d rest IH]; intros Hnodup Hin; [destruct Hin|].
  inversion Hnodup as [|d' rest' Hfresh Hrest]; subst. cbn.
  destruct (String.eqb_spec d c) as [Heq | Hne].
  - subst d. exists rest. split; [reflexivity | exact Hfresh].
  - destruct Hin as [Heq | Hin]; [congruence|].
    destruct (IH Hrest Hin) as (rest1 & Hredeem & Hgone).
    rewrite Hredeem. exists (d :: rest1). split; [reflexivity|].
    intros [Heq | Hin']; [congruence | exact (Hgone Hin')].
Qed.

(** The first request with an issued code ends as the redirect to the
    destination does; the same request sent again is exchanged again, fails,
    and lands on the error page. *)
Lemma GET_replay (href : string -> option string)
      (request : Request) (issued : SingleUse.t) (c : string) :
  List.NoDup issued ->
  List.In c issued ->
  c <> "" ->
  code_of request = Some c ->
  Checked.accepts href (failure request) ->
  let first := Checked.respond href SingleUse.exchange request issued in
  let second := Checked.respond href SingleUse.exchange request (world first) in
  value first = Checked.redirect href (destination request)
  /\ value second = Checked.Returned (NextResponse.redirect (failure request))
  /\ exchanges (calls second) = 1.
Proof.
  intros Hnodup Hin Hc Hcode Hfail. cbv zeta.
  assert (Ht : truthy c = true) by (destruct c; [congruence | reflexivity]).
  destruct (@redeem_known c issued Hnodup Hin) as (rest & Hredeem & Hgone).
  rewrite !(checked_code href SingleUse.exchange request _ Hcode Ht).
  cbn [value world calls].
  unfold SingleUse.exchange at 1 2 3. rewrite Hredeem. cbn [fst snd].
  unfold SingleUse.exchange. rewrite (@redeem_unknown c rest Hgone). cbn [fst].
  unfold Checked.redirect, Checked.accepts in *. rewrite Hfail.
  repeat split.
Qed.
End Replay.

Section RouteClaims.
Import Route Claims.

(** C1 fails on the code: when the code is accepted and [{origin}{next}] is
    not a valid URL, the handler exchanges the code and then ends with the
    exception of [NextResponse.redirect]; no response is returned, neither
    the redirect to the destination nor the one to the error page. *)
Theorem GET_throws_on_malformed_destination
        (href : string -> option string)
        (P : Type) (exchange : string -> P -> option AuthError * P)
        (request : Request) (p : P) (c : string) :
  code_of request = Some c ->
  c <> "" ->
  fst (exchange c p) = None ->
  href (destination request) = None ->
  let o := Checked.respond href exchange request p in
  value o = Checked.Threw (destination request)
  /\ calls o = [call CreateClient; call (ExchangeCodeForSession c)]
  /\ world o = snd (exchange c p)
  /\ forall response : Response, value o <> Checked.Returned response.
Proof.
  intros Hcode Hc Hok Hbad. cbv zeta.
  assert (Ht : truthy c = true) by (destruct c; [congruence | reflexivity]).
  rewrite (checked_code href exchange request p Hcode Ht). cbn [value world calls].
  rewrite Hok. unfold Checked.redirect. rewrite Hbad.
  repeat split. intros response. discriminate.
Qed.

Lemma GET_throws_on_malformed_destination_witness :
  let request := get_request "https://bookmarks.example"
                             [("code", "4/0AfJohX"); ("next", ":x")] in
  let o := Checked.respond Samples.sample_href accept_all request tt in
  value o = Checked.Threw "https://bookmarks.example:x"
  /\ calls o = [call CreateClient; call (ExchangeCodeForSession "4/0AfJohX")].
Proof.
  cbv zeta.
  destruct (@GET_throws_on_malformed_destination
              Samples.sample_href unit accept_all
              (get_request "https://bookmarks.example"
                           [("code", "4/0AfJohX"); ("next", ":x")]) tt
              "4/0AfJohX" eq_refl)
    as (Hvalue & Hcalls & _).
  - discriminate.
  - reflexivity.
  - reflexivity.
  - split; [exact Hvalue | exact Hcalls].
Defined.

(** C2: a request without a [code] parameter causes no call at all (no client
  is created, no exchange is made) and is answered with the redirect to the
  error page, whatever its other parameters are. *)
Theorem GET_without_code
      (P : Type) (exchange : string -> P -> option AuthError * P)
      (request : Request) (p : P) :
code_of request = None ->
let o := respond exchange request p in
calls o = []
/\ exchanges (calls o) = 0
/\ world o = p
/\ value o = NextResponse.redirect (failure request).
Proof.
intros Hcode. cbv zeta. rewrite (respond_no_code exchange request p Hcode).
repeat split.
Qed.

Lemma GET_without_code_witness :
code_of (get_request "https://bookmarks.example" [("next", "/dashboard")]) = None
/\ value (respond accept_all
                  (get_request "https://bookmarks.example" [("next", "/dashboard")]) tt)
   = NextResponse.redirect "https://bookmarks.example/auth/auth-code-error".
Proof.
split; [reflexivity|].
apply (GET_without_code accept_all
         (get_request "https://bookmarks.example" [("next", "/dashboard")]) tt).
reflexivity.
Defined.

(** C3 as written fails: a request whose [code] parameter is present and
  empty is not exchanged, even by a provider that would accept it. *)
Lemma empty_code_is_not_exchanged : ~ every_code_is_exchanged.
Proof.
intros H.
destruct (H unit accept_all
            (get_request "https://bookmarks.example" [("code", "")]) tt ""
            eq_refl) as [Hone _].
discriminate Hone.
Qed.

(** C3, amended: a request whose [code] parameter is present and not empty is
    exchanged exactly once, with that code.  When the exchange succeeds and
    [{origin}{next}] is a valid URL, [next] being the parameter or ["/"] when
    it is absent, the answer is the redirect to it, in normalised form.  When
    the exchange fails, the answer is the redirect to the error page. *)
Theorem GET_exchanges_nonempty_code
        (href : string -> option string)
        (P : Type) (exchange : string -> P -> option AuthError * P)
        (request : Request) (p : P) (c : string) :
  code_of request = Some c ->
  c <> "" ->
  Checked.accepts href (failure request) ->
  let o := Checked.respond href exchange request p in
  exchanges (calls o) = 1
  /\ calls o = [call CreateClient; call (ExchangeCodeForSession c)]
  /\ match fst (exchange c p) with
     | None =>
         forall normal : string,
           href (destination request) = Some normal ->
           value o = Checked.Returned (NextResponse.redirect normal)
     | Some _ =>
         value o = Checked.Returned (NextResponse.redirect (failure request))
     end.
Proof.
  intros Hcode Hc Hfail. cbv zeta.
  assert (Ht : truthy c = true) by (destruct c; [congruence | reflexivity]).
  rewrite (checked_code href exchange request p Hcode Ht). cbn [value calls].
  split; [reflexivity|]. split; [reflexivity|].
  destruct (fst (exchange c p)).
  - unfold Checked.redirect. rewrite Hfail. reflexivity.
  - intros normal Hnormal. unfold Checked.redirect. rewrite Hnormal. reflexivity.
Qed.

Lemma GET_exchanges_nonempty_code_witness :
  let request := get_request "https://bookmarks.example"
                             [("code", "4/0AfJohX"); ("next", "/dashboard")] in
  let o := Checked.respond Samples.sample_href accept_all request tt in
  exchanges (calls o) = 1
  /\ value o
     = Checked.Returned (NextResponse.redirect "https://bookmarks.example/dashboard").
Proof.
  cbv zeta.
  destruct (@GET_exchanges_nonempty_code
              Samples.sample_href unit accept_all
              (get_request "https://bookmarks.example"
                           [("code", "4/0AfJohX"); ("next", "/dashboard")]) tt
              "4/0AfJohX" eq_refl)
    as (Hone & _ & Hvalue).
  - discriminate.
  - reflexivity.
  - split; [exact Hone | apply Hvalue; reflexivity].
Defined.

(** C10: a request whose [code] parameter is the empty string is answered as
  a request of the same origin without the parameter: no call is made and
  the answer is the redirect to the error page. *)
Theorem GET_empty_code
      (P : Type) (exchange : string -> P -> option AuthError * P)
      (request absent : Request) (p : P) :
code_of request = Some "" ->
code_of absent = None ->
origin (url absent) = origin (url request) ->
let o := respond exchange request p in
o = respond exchange absent p
/\ exchanges (calls o) = 0
/\ calls o = []
/\ value o = NextResponse.redirect (failure request).
Proof.
intros Hempty Habsent Horigin. cbv zeta.
rewrite (respond_empty_code exchange request p Hempty).
rewrite (respond_no_code exchange absent p Habsent).
unfold failure. rewrite Horigin. repeat split.
Qed.

Lemma GET_empty_code_witness :
let request := get_request "https://bookmarks.example" [("code", ""); ("next", "/a")] in
let absent := get_request "https://bookmarks.example" [("next", "/a")] in
respond accept_all request tt = respond accept_all absent tt
/\ calls (respond accept_all request tt) = [].
Proof.
cbv zeta.
destruct (GET_empty_code accept_all
            (get_request "https://bookmarks.example" [("code", ""); ("next", "/a")])
            (get_request "https://bookmarks.example" [("next", "/a")]) tt
            eq_refl eq_refl eq_refl) as (Hsame & _ & Hcalls & _).
split; [exact Hsame | exact Hcalls].
Defined.

End RouteClaims.

(** ** The controller *)

Section RunFacts.
Context {E : Type -> Type} {W : Type}.
Variable handle : forall X : Type, E X -> W -> X * W.

Lemma run_bind (A R : Type) (p : Prog E A) (f : A -> Prog E R) (w : W) :
  run handle (pbind p f) w
  = let o := run handle p w in
    let o' := run handle (f (value o)) (world o) in
    mkOutcome (value o') (world o') (calls o ++ calls o')%list.
Proof.
  revert w. induction p as [a | X e k IH]; intros w; cbn.
  - destruct (run handle (f a) w); reflexivity.
  - destruct (handle e w) as [x w']. rewrite IH. reflexivity.
Qed.

Lemma run_detached (R : Type) (p : Prog E R) (w : W) :
  run handle (detached p) w
  = mkOutcome tt (world (run handle p w)) (calls (run handle p w)).
Proof.
  unfold detached. cbn. rewrite run_bind. cbn.
  rewrite app_nil_r. reflexivity.
Qed.

Lemma run_detached_unit (p : Prog E unit) (w : W) :
  run handle (detached p) w = run handle p w.
Proof.
  rewrite run_detached. destruct (run handle p w) as [[] w' cs]. reflexivity.
Qed.
End RunFacts.

Section ControllerFacts.
Import Client Env.
Variable B : Type.
Variable sv : Services B.

#[local] Arguments String.append : simpl never.

Lemma unmount_only_clears_flag (w : World B) :
  unmount sv w = mkOutcome tt (with_mounted w false) [call (WriteMounted false)].
Proof. reflexivity. Qed.

Lemma deliver_onChange (payload : Payload) (s : Subscription) (w : World B) :
  sub_callback s = onChange ->
  deliver sv payload s w = exec sv loadBookmarks w.
Proof.
  intros Hcb. unfold deliver, exec. rewrite Hcb. unfold onChange.
  apply run_detached_unit.
Qed.

(** [loadBookmarks] makes one remote call, the list query, and touches only
    the list, the error message and the loading flag. *)
Lemma loadBookmarks_calls (w : World B) :
  let o := exec sv loadBookmarks w in
  List.filter is_remote (calls o) = [call list_query]
  /\ List.filter is_subscribe (calls o) = []
  /\ List.filter is_insert (calls o) = []
  /\ List.filter is_select (calls o) = [call list_query].
Proof.
  cbv zeta. unfold exec, loadBookmarks. cbn.
  destruct (select sv _ _ _ _ (backend w)) as [[data|e] b]; cbn; repeat split.
Qed.

Lemma loadBookmarks_frame (w : World B) :
  let o := exec sv loadBookmarks w in
  user (state (world o)) = user (state w)
  /\ url (state (world o)) = url (state w)
  /\ title (state (world o)) = title (state w)
  /\ channels (world o) = channels w
  /\ opened (world o) = opened w
  /\ mounted (world o) = mounted w.
Proof.
  cbv zeta. unfold exec, loadBookmarks. cbn.
  destruct (select sv _ _ _ _ (backend w)) as [[data|e] b]; cbn; repeat split.
Qed.

Lemma loadBookmarks_result (w : World B) :
  let o := exec sv loadBookmarks w in
  match fst (select sv "bookmarks" "id, url, title, user_id, created_at"
                    "created_at" false (backend w)) with
  | Success data =>
      bookmarks (state (world o)) = data /\ errorMsg (state (world o)) = None
  | Failure e =>
      bookmarks (state (world o)) = bookmarks (state w)
      /\ errorMsg (state (world o))
         = Some ("Failed to load bookmarks: " ++ message e)
  end.
Proof.
  cbv zeta. unfold exec, loadBookmarks. cbn.
  destruct (select sv _ _ _ _ (backend w)) as [[data|e] b]; cbn; split; reflexivity.
Qed.

#[local] Arguments loadBookmarks : simpl never.

Lemma unmount_never_removes (w : World B) :
  channels (world (unmount sv w)) = channels w
  /\ count is_removeChannel (calls (unmount sv w)) = 0.
Proof. rewrite unmount_only_clears_flag. split; reflexivity. Qed.

(** When the component is gone before the user query answers, [init] stops
    after reading the flag. *)
Lemma init_when_unmounted (w : World B) :
  mounted w = false ->
  let o := exec sv init w in
  value o = None
  /\ calls o = [call GetUser; call ReadMounted]
  /\ state (world o) = state w
  /\ channels (world o) = channels w.
Proof.
  intros Hm. cbv zeta. unfold exec, init. cbn.
  destruct (getUser sv (backend w)) as [answer b]. cbn. rewrite Hm. cbn.
  repeat split.
Qed.

(** The closure that removes the channel is the value of [init]. *)
Lemma init_returns_the_removal (w : World B) (u : User.t) :
  fst (getUser sv (backend w)) = Some u ->
  mounted w = true ->
  value (exec sv init w) = Some (trigger (RemoveChannel (opened w))).
Proof.
  intros Huser Hm. unfold exec, init. cbn.
  destruct (getUser sv (backend w)) as [answer b]. cbn in Huser. subst answer.
  cbn. rewrite Hm. cbn. rewrite run_bind. cbv zeta. cbn.
  match goal with
  | |- context [run (handle sv) loadBookmarks ?W] =>
      destruct (loadBookmarks_frame W) as (_ & _ & _ & _ & Hopened & _)
  end.
  unfold exec in Hopened. rewrite Hopened. reflexivity.
Qed.
End ControllerFacts.

Section ControllerClaims.
Import Client Env Claims.

#[local] Arguments String.append : simpl never.

(** C9: signing out calls the session invalidation once and then, whatever
    that call answered, sets the user to [null] and the bookmark list to the
    empty list. *)
Theorem handleSignOut_clears (B : Type) (sv : Services B) (w : World B) :
  let o := exec sv handleSignOut w in
  calls o = [call SignOut; call (SetUser None); call (SetBookmarks [])]
  /\ user (state (world o)) = None
  /\ bookmarks (state (world o)) = [].
Proof.
  cbv zeta. unfold exec, handleSignOut. cbn.
  destruct (signOut sv (backend w)) as [answer b]. cbn.
  repeat split.
Qed.

(** C8: when the remote delete answers an error, the error message is set
    from it, the bookmark list is the one displayed before, and the delete is
    the only remote call: no fetch follows. *)
Theorem handleDeleteBookmark_failure
        (B : Type) (sv : Services B) (w : World B) (id : Z) (e : PostgrestError) :
  fst (delete sv "bookmarks" "id" id (backend w)) = Some e ->
  let o := exec sv (handleDeleteBookmark id) w in
  errorMsg (state (world o)) = Some ("Error deleting bookmark: " ++ message e)
  /\ bookmarks (state (world o)) = bookmarks (state w)
  /\ count is_select (calls o) = 0
  /\ List.filter is_remote (calls o) = [call (Delete "bookmarks" "id" id)].
Proof.
  intros Hdel. cbv zeta. unfold exec, handleDeleteBookmark. cbn.
  destruct (delete sv "bookmarks" "id" id (backend w)) as [answer b].
  cbn in Hdel. subst answer. cbn. repeat split.
Qed.

Lemma handleDeleteBookmark_failure_witness :
  let w := fresh (typing (Some alice) [rocq_site; next_site] "" "") rejecting in
  let o := exec scripted (handleDeleteBookmark 2) w in
  errorMsg (state (world o))
  = Some "Error deleting bookmark: new row violates row-level security policy"
  /\ bookmarks (state (world o)) = [rocq_site; next_site].
Proof.
  cbv zeta.
  destruct (handleDeleteBookmark_failure scripted
              (fresh (typing (Some alice) [rocq_site; next_site] "" "") rejecting)
              2 (e := denied) eq_refl) as (Hmsg & Hlist & _).
  split; [exact Hmsg | exact Hlist].
Defined.

(** C7: when the URL is empty, the title is empty or no user is known, the
    handler makes no remote call, in particular no insert, and leaves the
    user, the list, the inputs and the error message as they were. *)
Theorem handleAddBookmark_guard (B : Type) (sv : Services B) (w : World B) :
  url (state w) = "" \/ title (state w) = "" \/ user (state w) = None ->
  let o := exec sv (handleAddBookmark (state w)) w in
  count is_insert (calls o) = 0
  /\ List.filter is_remote (calls o) = []
  /\ state (world o) = state w
  /\ world o = w.
Proof.
  intros Hguard. cbv zeta. unfold exec, handleAddBookmark.
  assert (Hstop : negb (truthy (url (state w))) || negb (truthy (title (state w)))
                  || negb (is_some (user (state w))) = true).
  { destruct Hguard as [-> | [-> | ->]]; cbn;
      rewrite ?orb_true_r; reflexivity. }
  cbn. rewrite Hstop. cbn. repeat split.
Qed.

Lemma handleAddBookmark_guard_witness :
  let w := fresh (typing (Some alice) [rocq_site] "https://nextjs.org" "") healthy in
  world (exec scripted (handleAddBookmark (state w)) w) = w.
Proof.
  cbv zeta.
  apply (handleAddBookmark_guard scripted
           (fresh (typing (Some alice) [rocq_site] "https://nextjs.org" "") healthy)).
  right. left. reflexivity.
Defined.

#[local] Arguments loadBookmarks : simpl never.
#[local] Arguments detached : simpl never.

(** C6: a create-bookmark invocation that reaches the backend makes one
    insert.  When the insert succeeds, both inputs are emptied and the list
    query is the next remote call, made by the handler itself.  When it
    fails, both inputs keep what was submitted, the error message is set from
    the backend error, and the insert is the only remote call. *)
Theorem handleAddBookmark_outcome
        (B : Type) (sv : Services B) (w : World B) (u : User.t) :
  user (state w) = Some u ->
  url (state w) <> "" ->
  title (state w) <> "" ->
  let row := {| new_url := url (state w); new_title := title (state w);
                new_user_id := User.id u |} in
  let o := exec sv (handleAddBookmark (state w)) w in
  count is_insert (calls o) = 1
  /\ match fst (insert sv "bookmarks" row (backend w)) with
     | None =>
         url (state (world o)) = ""
         /\ title (state (world o)) = ""
         /\ List.filter is_remote (calls o)
            = [call (Insert "bookmarks" row);
               call (Select "bookmarks" "id, url, title, user_id, created_at"
                            "created_at" false)]
     | Some e =>
         url (state (world o)) = url (state w)
         /\ title (state (world o)) = title (state w)
         /\ errorMsg (state (world o))
            = Some ("Error adding bookmark: " ++ message e)
         /\ List.filter is_remote (calls o) = [call (Insert "bookmarks" row)]
     end.
Proof.
  intros Huser Hurl Htitle. cbv zeta. unfold exec, handleAddBookmark.
  assert (Hgo : negb (truthy (url (state w))) || negb (truthy (title (state w)))
                || negb (is_some (user (state w))) = false).
  { rewrite Huser. destruct (url (state w)); [congruence|].
    destruct (title (state w)); [congruence|]. reflexivity. }
  cbn. rewrite Hgo, Huser. cbn.
  destruct (insert sv "bookmarks" _ (backend w)) as [[e|] b]; cbn.
  - repeat split.
  - rewrite run_detached. cbn.
    match goal with
    | |- context [run (handle sv) loadBookmarks ?W] =>
        destruct (loadBookmarks_calls sv W) as (Hremote & _ & Hinsert & _);
        destruct (loadBookmarks_frame sv W) as (_ & Hu & Ht & _)
    end.
    unfold exec in *. unfold count. rewrite Hremote, Hinsert, Hu, Ht.
    repeat split.
Qed.

Lemma handleAddBookmark_outcome_witness :
  let w := fresh (typing (Some alice) [next_site] "https://rocq-prover.org" "Rocq")
                 healthy in
  let o := exec scripted (handleAddBookmark (state w)) w in
  url (state (world o)) = "" /\ title (state (world o)) = "".
Proof.
  cbv zeta.
  destruct (handleAddBookmark_outcome scripted
              (fresh (typing (Some alice) [next_site] "https://rocq-prover.org" "Rocq")
                     healthy)
              (u := alice) eq_refl) as (_ & Hurl & Htitle & _).
  - discriminate.
  - discriminate.
  - split; [exact Hurl | exact Htitle].
Defined.

(** C5: mounting with a signed-in user makes three remote calls, in this
    order: the user query, the list query ordered by [created_at] descending,
    and one subscription.  The subscription is filtered on the identifier of
    that user and listens to every event type; a notification delivered to it
    does what [loadBookmarks] does, whatever it carries.  The list shown
    afterwards is the one the list query answered. *)
Theorem mount_with_session
        (B : Type) (sv : Services B) (w : World B) (u : User.t) :
  fst (getUser sv (backend w)) = Some u ->
  let rows := fst (select sv "bookmarks" "id, url, title, user_id, created_at"
                          "created_at" false (snd (getUser sv (backend w)))) in
  let sub := {| sub_name := "bookmarks_changes"; sub_kind := "postgres_changes";
                sub_filter := changes_of u; sub_callback := onChange;
                sub_status := onStatus |} in
  let o := mount sv w in
  List.filter is_remote (calls o)
  = [call GetUser;
     call (Select "bookmarks" "id, url, title, user_id, created_at" "created_at" false);
     call (Subscribe "bookmarks_changes" "postgres_changes" (changes_of u)
                     onChange onStatus)]
  /\ count is_subscribe (calls o) = 1
  /\ channels (world o) = (channels w ++ [(opened w, sub)])%list
  /\ event (sub_filter sub) = "*"
  /\ filter (sub_filter sub) = "user_id=eq." ++ User.id u
  /\ user (state (world o)) = Some u
  /\ (forall data, rows = Success data -> bookmarks (state (world o)) = data)
  /\ (forall (payload : Payload) (w' : World B),
        deliver sv payload sub w' = exec sv loadBookmarks w').
Proof.
  intros Huser. cbv zeta. unfold mount, exec, effect, setup. cbn.
  rewrite run_detached. cbn.
  destruct (getUser sv (backend w)) as [answer b]. cbn in Huser. subst answer.
  cbn. rewrite run_bind. cbv zeta. cbn.
  match goal with
  | |- context [run (handle sv) loadBookmarks ?W] =>
      destruct (loadBookmarks_calls sv W) as (Hremote & Hsub & _ & _);
      destruct (loadBookmarks_frame sv W) as (Hu & _ & _ & Hch & Hop & _);
      pose proof (loadBookmarks_result sv W) as Hres
  end.
  unfold exec in *. cbv zeta in Hres. cbn in Hres, Hu, Hch, Hop.
  unfold count. rewrite !filter_app, Hremote, Hsub, Hu, Hch, Hop. cbn.
  repeat split.
  - intros data Hrows. rewrite Hrows in Hres. apply Hres.
  - intros payload w'. unfold onChange. apply run_detached_unit.
Qed.

Lemma mount_with_session_witness :
  let o := mount scripted (fresh initial healthy) in
  count is_subscribe (calls o) = 1
  /\ bookmarks (state (world o)) = [rocq_site; next_site].
Proof.
  cbv zeta.
  destruct (mount_with_session scripted (fresh initial healthy) (u := alice) eq_refl)
    as (_ & Hone & _ & _ & _ & _ & Hrows & _).
  split; [exact Hone | apply Hrows; reflexivity].
Defined.

(** Had React been given the value of [init], running it would have closed
    the channel. *)
Example value_of_init_closes_the_channel :
  let o := exec scripted init (with_mounted (fresh initial healthy) true) in
  List.map fst (channels (world o)) = [0]
  /\ match value o with
     | Some removal => channels (world (exec scripted removal (world o))) = []
     | None => False
     end.
Proof. cbv zeta. split; reflexivity. Qed.

(** C4 fails on the code: after a mount that opened the subscription, the
    unmount only clears the [mounted] flag.  [removeChannel] is not called and
    the channel is still open afterwards. *)
Theorem unmount_leaves_subscription_open :
  let shown := mount scripted (fresh initial healthy) in
  let gone := unmount scripted (world shown) in
  count is_subscribe (calls shown) = 1
  /\ List.map fst (channels (world shown)) = [0]
  /\ calls gone = [call (WriteMounted false)]
  /\ count is_removeChannel (calls gone) = 0
  /\ List.map fst (channels (world gone)) = [0].
Proof.
  cbv zeta. rewrite unmount_only_clears_flag.
  repeat split.
Qed.

End ControllerClaims.

(** ** Further facts about the callback route *)

Section RouteMore.
Import Route Claims.

Lemma append_empty (s : string) : s ++ "" = s.
Proof. induction s as [|a s IH]; cbn; [reflexivity | rewrite IH; reflexivity]. Qed.

(** X1: a request causes at most one exchange, whatever the provider answers;
    the server client is created only for that exchange and just before it;
    a request that is not exchanged leaves the provider as it was. *)
Theorem GET_at_most_one_exchange
        (P : Type) (exchange : string -> P -> option AuthError * P)
        (request : Request) (p : P) :
  let o := respond exchange request p in
  exchanges (calls o) <= 1
  /\ (calls o = [] /\ world o = p
      \/ exists c, code_of request = Some c /\ c <> ""
                   /\ calls o = [call CreateClient; call (ExchangeCodeForSession c)]
                   /\ world o = snd (exchange c p)).
Proof.
  cbv zeta. destruct (code_of request) as [c|] eqn:Hcode.
  - destruct c as [|a c'].
    + rewrite (respond_empty_code exchange request p Hcode). cbn.
      split; [apply le_0_n | left; split; reflexivity].
    + rewrite (respond_code exchange request p Hcode eq_refl). cbn.
      split; [apply le_n|]. right. exists (String a c').
      repeat split. discriminate.
  - rewrite (respond_no_code exchange request p Hcode). cbn.
    split; [apply le_0_n | left; split; reflexivity].
Qed.

(** X3: a [next] parameter that is present and empty makes the handler hand
    the bare origin to [NextResponse.redirect]; when the parser gives the
    bare origin the path [/], the request is answered exactly as one without
    the parameter. *)
Theorem GET_empty_next_like_absent
        (href : string -> option string)
        (P : Type) (exchange : string -> P -> option AuthError * P)
        (present absent : Request) (p : P) (root : string) :
  origin (url present) = origin (url absent) ->
  code_of present = code_of absent ->
  URLSearchParams.get "next" (searchParams (url present)) = Some "" ->
  URLSearchParams.get "next" (searchParams (url absent)) = None ->
  href (origin (url absent)) = Some root ->
  href (origin (url absent) ++ "/") = Some root ->
  destination present = origin (url absent)
  /\ Checked.respond href exchange present p
     = Checked.respond href exchange absent p.
Proof.
  intros Horigin Hcode Hempty Hnone Hbare Hroot.
  assert (Hdest : destination present = origin (url absent)).
  { unfold destination, next_of. rewrite Hempty, Horigin. cbn. apply append_empty. }
  assert (Hdest' : destination absent = origin (url absent) ++ "/").
  { unfold destination, next_of. rewrite Hnone. reflexivity. }
  assert (Hfail : failure present = failure absent).
  { unfold failure. rewrite Horigin. reflexivity. }
  split; [exact Hdest|].
  destruct (code_of absent) as [c|] eqn:Hc.
  - destruct c as [|a c'].
    + rewrite (checked_empty_code href exchange present p Hcode).
      rewrite (checked_empty_code href exchange absent p Hc).
      rewrite Hfail. reflexivity.
    + rewrite (checked_code href exchange present p Hcode eq_refl).
      rewrite (checked_code href exchange absent p Hc eq_refl).
      rewrite Hfail, Hdest, Hdest'. unfold Checked.redirect.
      rewrite Hbare, Hroot. reflexivity.
  - rewrite (checked_no_code href exchange present p Hcode).
    rewrite (checked_no_code href exchange absent p Hc).
    rewrite Hfail. reflexivity.
Qed.

Lemma GET_empty_next_like_absent_witness :
  Checked.respond Samples.sample_href accept_all
                  (get_request "https://bookmarks.example"
                               [("code", "4/0AfJohX"); ("next", "")]) tt
  = Checked.respond Samples.sample_href accept_all
                    (get_request "https://bookmarks.example"
                                 [("code", "4/0AfJohX")]) tt.
Proof.
  apply (@GET_empty_next_like_absent Samples.sample_href unit accept_all
           (get_request "https://bookmarks.example"
                        [("code", "4/0AfJohX"); ("next", "")])
           (get_request "https://bookmarks.example" [("code", "4/0AfJohX")])
           tt "https://bookmarks.example/"); reflexivity.
Defined.

End RouteMore.

(** ** The two clients *)

Section ClientConfiguration.
Import Supabase.

(** X4: the server client is built from the same two public variables as the
    browser client, so both get the same URL and the same key, and no other
    variable of the environment changes what the server client is built
    from. *)
Theorem server_client_configuration (O : Type) (env env' : ProcessEnv) :
  env' "NEXT_PUBLIC_SUPABASE_URL" = env "NEXT_PUBLIC_SUPABASE_URL" ->
  env' "NEXT_PUBLIC_SUPABASE_ANON_KEY" = env "NEXT_PUBLIC_SUPABASE_ANON_KEY" ->
  Server.createClient O env' = Server.createClient O env
  /\ server_url (Server.createClient O env) = browser_url (Browser.createClient env)
  /\ server_key (Server.createClient O env) = browser_key (Browser.createClient env).
Proof.
  intros Hurl Hkey. unfold Server.createClient, Browser.createClient.
  rewrite Hurl, Hkey. repeat split.
Qed.

Lemma server_client_configuration_witness :
  let env := fun name : string =>
               if String.eqb name "NEXT_PUBLIC_SUPABASE_URL" then Some "https://p.supabase.co"
               else if String.eqb name "NEXT_PUBLIC_SUPABASE_ANON_KEY" then Some "anon"
               else None in
  let env' := fun name : string =>
                if String.eqb name "SUPABASE_SERVICE_ROLE_KEY" then Some "service"
                else env name in
  Server.createClient unit env' = Server.createClient unit env.
Proof.
  cbv zeta.
  apply (server_client_configuration unit
           (fun name : string =>
              if String.eqb name "NEXT_PUBLIC_SUPABASE_URL" then Some "https://p.supabase.co"
              else if String.eqb name "NEXT_PUBLIC_SUPABASE_ANON_KEY" then Some "anon"
              else None)
           (fun name : string =>
              if String.eqb name "SUPABASE_SERVICE_ROLE_KEY" then Some "service"
              else if String.eqb name "NEXT_PUBLIC_SUPABASE_URL"
                   then Some "https://p.supabase.co"
              else if String.eqb name "NEXT_PUBLIC_SUPABASE_ANON_KEY" then Some "anon"
              else None)); reflexivity.
Defined.

End ClientConfiguration.

(** ** The displayed address *)

Section DisplayedAddress.
Import Page.

Lemma strip_some (p s rest : string) :
  strip p s = Some rest <-> s = p ++ rest.
Proof.
  revert s. induction p as [|a p IH]; intros s; cbn.
  - split; [intros [= ->]; reflexivity | intros ->; reflexivity].
  - destruct s as [|b s]; [split; discriminate|].
    destruct (Ascii.eqb_spec a b) as [<- | Hne].
    + rewrite IH. split; [intros ->; reflexivity | intros [= ->]; reflexivity].
    + split; [discriminate | intros [= Hab _]; congruence].
Qed.

Lemma strip_append (p rest : string) : strip p (p ++ rest) = Some rest.
Proof. apply strip_some. reflexivity. Qed.

Lemma strip_none_prefix (p s : string) :
  strip p s = None <-> String.prefix p s = false.
Proof.
  revert s. induction p as [|a p IH]; intros s; destruct s as [|b s]; cbn.
  - split; discriminate.
  - split; discriminate.
  - split; reflexivity.
  - destruct (Ascii.eqb_spec a b) as [<- | Hne].
    + rewrite IH. destruct (Ascii.ascii_dec a a) as [_ | Hne]; [reflexivity | congruence].
    + destruct (Ascii.ascii_dec a b) as [Heq | _]; [congruence | split; reflexivity].
Qed.

(** X5: one leading [https://] or [http://] is removed, whatever follows
    it, and only one: a second scheme behind the first stays. *)
Theorem displayUrl_strips_scheme (rest : string) :
  displayUrl ("https://" ++ rest) = rest
  /\ displayUrl ("http://" ++ rest) = rest
  /\ displayUrl ("http://" ++ "https://" ++ rest) = "https://" ++ rest.
Proof.
  assert (Hhttp : forall r, displayUrl ("http://" ++ r) = r).
  { intros r. unfold displayUrl.
    destruct (strip "https://" ("http://" ++ r)) as [x|] eqn:Hs.
    - apply strip_some in Hs. cbn in Hs. discriminate Hs.
    - rewrite strip_append. reflexivity. }
  split; [|split].
  - unfold displayUrl. rewrite strip_append. reflexivity.
  - apply Hhttp.
  - apply Hhttp.
Qed.

(** X6: an address that starts with neither scheme, in lower case, is shown
    as it is. *)
Theorem displayUrl_without_scheme (u : string) :
  String.prefix "https://" u = false ->
  String.prefix "http://" u = false ->
  displayUrl u = u.
Proof.
  intros Hs Hp. unfold displayUrl.
  rewrite (proj2 (strip_none_prefix "https://" u) Hs).
  rewrite (proj2 (strip_none_prefix "http://" u) Hp). reflexivity.
Qed.

Lemma displayUrl_without_scheme_witness :
  displayUrl "HTTPS://Example.com" = "HTTPS://Example.com".
Proof.
  apply (displayUrl_without_scheme "HTTPS://Example.com"); reflexivity.
Defined.

(** X7: what is shown is always the end of the address: the address is the
    shown text behind one of [https://], [http://] and the empty string. *)
Theorem displayUrl_is_suffix (u : string) :
  u = "https://" ++ displayUrl u
  \/ u = "http://" ++ displayUrl u
  \/ u = displayUrl u.
Proof.
  unfold displayUrl.
  destruct (strip "https://" u) as [r|] eqn:Hs.
  - left. apply strip_some. exact Hs.
  - destruct (strip "http://" u) as [r|] eqn:Hp.
    + right. left. apply strip_some. exact Hp.
    + right. right. reflexivity.
Qed.

End DisplayedAddress.

(** ** Programs that avoid some calls *)

Section AvoidsFacts.
Context {E : Type -> Type} {W : Type}.
Variable handle : forall X : Type, E X -> W -> X * W.
Variable bad : Call E -> bool.

Lemma avoids_calls (R : Type) (p : Prog E R) :
  Avoids bad p -> forall w : W, List.filter bad (calls (run handle p w)) = [].
Proof.
  induction 1 as [r | X e k Hbad _ IH]; intros w; cbn; [reflexivity|].
  destruct (handle e w) as [x w']. cbn. rewrite Hbad. apply IH.
Qed.

Lemma avoids_keeps (A R : Type) (f : W -> A) (p : Prog E R) :
  (forall (X : Type) (e : E X) (w : W),
      bad (call e) = false -> f (snd (handle e w)) = f w) ->
  Avoids bad p ->
  forall w : W, f (world (run handle p w)) = f w.
Proof.
  intros Hframe. induction 1 as [r | X e k Hbad _ IH]; intros w; cbn; [reflexivity|].
  specialize (Hframe X e w Hbad). destruct (handle e w) as [x w']. cbn in *.
  rewrite IH. exact Hframe.
Qed.

Lemma avoids_bind (A R : Type) (p : Prog E A) (f : A -> Prog E R) :
  Avoids bad p -> (forall a : A, Avoids bad (f a)) -> Avoids bad (pbind p f).
Proof.
  intros Hp Hf. induction Hp as [r | X e k Hbad _ IH]; cbn.
  - apply Hf.
  - apply AvoidsVis; [exact Hbad | exact IH].
Qed.

Lemma avoids_detached (R : Type) (p : Prog E R) :
  Avoids bad p -> Avoids bad (detached p).
Proof.
  intros Hp. unfold detached. cbn. apply avoids_bind; [exact Hp|].
  intros a. apply AvoidsRet.
Qed.
End AvoidsFacts.

Section Footprints.
Import Client Env Page Session.
Variable B : Type.
Variable sv : Services B.

#[local] Arguments String.append : simpl never.

Lemma loadBookmarks_avoids (bad : Call clientE -> bool) :
  bad (call (SetErrorMsg None)) = false ->
  bad (call list_query) = false ->
  (forall l, bad (call (SetBookmarks l)) = false) ->
  (forall a b, bad (call (ConsoleError a b)) = false) ->
  (forall m, bad (call (SetErrorMsg m)) = false) ->
  bad (call (SetLoading false)) = false ->
  Avoids bad loadBookmarks.
Proof.
  intros H1 H2 H3 H4 H5 H6. unfold loadBookmarks. cbn.
  apply AvoidsVis; [exact H1 | intros _].
  apply AvoidsVis; [exact H2 | intros [data | e]]; cbn.
  - apply AvoidsVis; [apply H3 | intros _]. apply AvoidsVis; [exact H6 | intros x].
    apply AvoidsRet.
  - apply AvoidsVis; [apply H4 | intros _]. apply AvoidsVis; [apply H5 | intros _].
    apply AvoidsVis; [exact H6 | intros x]. apply AvoidsRet.
Qed.

Lemma loadBookmarks_no_channel_op : Avoids is_channel_op loadBookmarks.
Proof. apply loadBookmarks_avoids; reflexivity. Qed.

Lemma loadBookmarks_no_setUser : Avoids is_setUser loadBookmarks.
Proof. apply loadBookmarks_avoids; reflexivity. Qed.

Lemma loadBookmarks_no_insert : Avoids is_insert loadBookmarks.
Proof. apply loadBookmarks_avoids; reflexivity. Qed.

Lemma loadBookmarks_no_delete : Avoids is_delete loadBookmarks.
Proof. apply loadBookmarks_avoids; reflexivity. Qed.

Lemma keeps_channels (R : Type) (p : Prog clientE R) (w : World B) :
  Avoids is_channel_op p ->
  channels (world (exec sv p w)) = channels w.
Proof.
  intros Hp. unfold exec.
  apply avoids_keeps with (bad := is_channel_op) (f := @channels B); [|exact Hp].
  intros X e w' Hbad. destruct e; cbn in *; try reflexivity; discriminate Hbad.
Qed.

Lemma keeps_user (R : Type) (p : Prog clientE R) (w : World B) :
  Avoids is_setUser p ->
  user (state (world (exec sv p w))) = user (state w).
Proof.
  intros Hp. unfold exec.
  apply avoids_keeps with (bad := is_setUser)
                          (f := fun w0 : World B => user (state w0)); [|exact Hp].
  intros X e w' Hbad. destruct e; cbn in *; try reflexivity; discriminate Hbad.
Qed.

Lemma no_inserts (R : Type) (p : Prog clientE R) (w : World B) :
  Avoids is_insert p -> collect inserted_row (calls (exec sv p w)) = [].
Proof.
  intros Hp. pose proof (avoids_calls (handle sv) Hp w) as Hnone.
  unfold exec. induction (calls (run (handle sv) p w)) as [|c cs IH]; [reflexivity|].
  cbn in Hnone. destruct c as [X e].
  destruct e; cbn in *; try (apply IH; exact Hnone); discriminate Hnone.
Qed.
End Footprints.

(** ** Further facts about the handlers *)

Section HandlerEquations.
Import Client Env Page Session.
Variable B : Type.
Variable sv : Services B.

#[local] Arguments String.append : simpl never.

Lemma collect_app (A : Type) (f : Call clientE -> option A) (xs ys : list (Call clientE)) :
  collect f (xs ++ ys) = (collect f xs ++ collect f ys)%list.
Proof.
  induction xs as [|c cs IH]; cbn; [reflexivity|].
  destruct (f c); cbn; rewrite IH; reflexivity.
Qed.

Lemma remote_kinds_app (xs ys : list (Call clientE)) :
  remote_kinds (xs ++ ys) = (remote_kinds xs ++ remote_kinds ys)%list.
Proof.
  induction xs as [|c cs IH]; cbn; [reflexivity|].
  destruct (remote_kind c); cbn; rewrite IH; reflexivity.
Qed.

(** What [loadBookmarks] does, by the answer to the list query. *)
Lemma loadBookmarks_run (w : World B) :
  let answer := select sv "bookmarks" "id, url, title, user_id, created_at"
                       "created_at" false (backend w) in
  let o := exec sv loadBookmarks w in
  remote_kinds (calls o) = [RSelect]
  /\ collect deleted_id (calls o) = []
  /\ backend (world o) = snd answer
  /\ Env.href (world o) = Env.href w
  /\ loading (state (world o)) = false
  /\ match fst answer with
     | Success data =>
         bookmarks (state (world o)) = data /\ errorMsg (state (world o)) = None
     | Failure e =>
         bookmarks (state (world o)) = bookmarks (state w)
         /\ errorMsg (state (world o))
            = Some ("Failed to load bookmarks: " ++ message e)
     end.
Proof.
  cbv zeta. unfold exec, loadBookmarks. cbn.
  destruct (select sv _ _ _ _ (backend w)) as [[data|e] b]; cbn; repeat split.
Qed.

#[local] Arguments loadBookmarks : simpl never.
#[local] Arguments detached : simpl never.

Lemma handleAddBookmark_blocked (s : State) (w : World B) :
  url s = "" \/ title s = "" \/ user s = None ->
  exec sv (handleAddBookmark s) w = mkOutcome tt w [call PreventDefault].
Proof.
  intros Hguard. unfold exec, handleAddBookmark.
  assert (Hstop : negb (truthy (url s)) || negb (truthy (title s))
                  || negb (is_some (user s)) = true).
  { destruct Hguard as [-> | [-> | ->]]; cbn; rewrite ?orb_true_r; reflexivity. }
  cbn. rewrite Hstop. reflexivity.
Qed.

Lemma handleAddBookmark_run (w : World B) (u : User.t) :
  user (state w) = Some u ->
  url (state w) <> "" ->
  title (state w) <> "" ->
  let row := row_of (state w) u in
  let answer := insert sv "bookmarks" row (backend w) in
  exec sv (handleAddBookmark (state w)) w
  = match fst answer with
    | None =>
        let o := exec sv loadBookmarks (after_insert w (snd answer)) in
        mkOutcome tt (world o)
                  ([call PreventDefault; call (SetErrorMsg None);
                    call (Insert "bookmarks" row);
                    call (SetUrl ""); call (SetTitle "")] ++ calls o)%list
    | Some e =>
        mkOutcome tt
                  (after_rejection w (snd answer)
                                   ("Error adding bookmark: " ++ message e))
                  [call PreventDefault; call (SetErrorMsg None);
                   call (Insert "bookmarks" row);
                   call (ConsoleError "Error adding bookmark" (message e));
                   call (SetErrorMsg (Some ("Error adding bookmark: " ++ message e)))]
    end.
Proof.
  intros Huser Hurl Htitle. cbv zeta. unfold exec, handleAddBookmark, row_of.
  assert (Hgo : negb (truthy (url (state w))) || negb (truthy (title (state w)))
                || negb (is_some (user (state w))) = false).
  { rewrite Huser. destruct (url (state w)); [congruence|].
    destruct (title (state w)); [congruence|]. reflexivity. }
  cbn. rewrite Hgo, Huser. cbn.
  destruct (insert sv "bookmarks" _ (backend w)) as [[e|] b]; cbn.
  - reflexivity.
  - rewrite run_detached. reflexivity.
Qed.

Lemma handleDeleteBookmark_run (w : World B) (id : Z) :
  let answer := delete sv "bookmarks" "id" id (backend w) in
  exec sv (handleDeleteBookmark id) w
  = match fst answer with
    | None =>
        let o := exec sv loadBookmarks (with_backend w (snd answer)) in
        mkOutcome tt (world o) (call (Delete "bookmarks" "id" id) :: calls o)
    | Some e =>
        mkOutcome tt
                  (after_rejection w (snd answer)
                                   ("Error deleting bookmark: " ++ message e))
                  [call (Delete "bookmarks" "id" id);
                   call (ConsoleError "Error deleting bookmark" (message e));
                   call (SetErrorMsg (Some ("Error deleting bookmark: " ++ message e)))]
    end.
Proof.
  cbv zeta. unfold exec, handleDeleteBookmark. cbn.
  destruct (delete sv "bookmarks" "id" id (backend w)) as [[e|] b]; cbn.
  - reflexivity.
  - rewrite run_detached. reflexivity.
Qed.

Lemma handleSignOut_run (w : World B) :
  exec sv handleSignOut w
  = mkOutcome tt
              (with_state (with_backend w (snd (signOut sv (backend w))))
                          {| user := None; bookmarks := []; url := url (state w);
                             title := title (state w); loading := loading (state w);
                             errorMsg := errorMsg (state w) |})
              [call SignOut; call (SetUser None); call (SetBookmarks [])].
Proof.
  unfold exec, handleSignOut. cbn.
  destruct (signOut sv (backend w)) as [answer b]. reflexivity.
Qed.

Lemma mount_signed_out (w : World B) :
  fst (getUser sv (backend w)) = None ->
  mount sv w
  = mkOutcome tt
              (with_state (with_backend (with_mounted w true)
                                        (snd (getUser sv (backend w))))
                          {| user := None; bookmarks := bookmarks (state w);
                             url := url (state w); title := title (state w);
                             loading := false; errorMsg := errorMsg (state w) |})
              [call (WriteMounted true); call GetUser; call ReadMounted;
               call (SetUser None); call (SetLoading false)].
Proof.
  intros Huser. unfold mount, exec, effect, setup. cbn.
  rewrite run_detached. cbn.
  destruct (getUser sv (backend w)) as [answer b]. cbn in Huser. subst answer.
  reflexivity.
Qed.

Lemma mount_signed_in (w : World B) (u : User.t) :
  fst (getUser sv (backend w)) = Some u ->
  let o := exec sv loadBookmarks
                (with_state (with_backend (with_mounted w true)
                                          (snd (getUser sv (backend w))))
                            {| user := Some u; bookmarks := bookmarks (state w);
                               url := url (state w); title := title (state w);
                               loading := loading (state w);
                               errorMsg := errorMsg (state w) |}) in
  mount sv w
  = mkOutcome tt
              (snd (subscribe (world o) (subscription_of u)))
              ([call (WriteMounted true); call GetUser; call ReadMounted;
                call (SetUser (Some u))]
               ++ calls o
               ++ [call (Subscribe "bookmarks_changes" "postgres_changes"
                                   (changes_of u) onChange onStatus)])%list.
Proof.
  intros Huser. cbv zeta. unfold mount, exec, effect, setup. cbn.
  rewrite run_detached. cbn.
  destruct (getUser sv (backend w)) as [answer b]. cbn in Huser. subst answer.
  cbn. rewrite run_bind. reflexivity.
Qed.

Lemma handleSignIn_run (w : World B) :
  let target := window_origin w ++ "/auth/callback" in
  let answer := signInWithOAuth sv "google" target (backend w) in
  exec sv handleSignIn w
  = match oauth_error (fst answer) with
    | Some e =>
        mkOutcome tt
                  (after_rejection w (snd answer) (auth_message e))
                  [call LocationOrigin; call (SignInWithOAuth "google" target);
                   call (ConsoleError "Error signing in" (auth_message e));
                   call (SetErrorMsg (Some (auth_message e)))]
    | None =>
        match oauth_url (fst answer) with
        | Some (String a rest) =>
            mkOutcome tt (with_href (with_backend w (snd answer)) (String a rest))
                      [call LocationOrigin; call (SignInWithOAuth "google" target);
                       call (SetLocationHref (String a rest))]
        | _ =>
            mkOutcome tt (with_backend w (snd answer))
                      [call LocationOrigin; call (SignInWithOAuth "google" target)]
        end
    end.
Proof.
  cbv zeta. unfold exec, handleSignIn. cbn.
  destruct (signInWithOAuth sv "google" _ (backend w)) as [[link failed] b]. cbn.
  destruct failed as [e|]; [reflexivity|].
  destruct link as [[|a rest]|]; reflexivity.
Qed.
End HandlerEquations.

Section HandlerFacts.
Import Client Env Page Session.
Variable B : Type.
Variable sv : Services B.

#[local] Arguments String.append : simpl never.
#[local] Arguments loadBookmarks : simpl never.
#[local] Arguments detached : simpl never.

Lemma truthy_false (s : string) : s = "" -> truthy s = false.
Proof. intros ->. reflexivity. Qed.

Lemma truthy_true (s : string) : s <> "" -> truthy s = true.
Proof. destruct s; [congruence | reflexivity]. Qed.

(** X8: [loadBookmarks] makes one remote call, the list query.  When it
    answers rows, they replace the list and the error message is cleared;
    when it answers an error, the list stays and the message is set from the
    error.  Either way the loading flag ends false. *)
Theorem loadBookmarks_outcome (w : World B) :
  let answer := fst (select sv "bookmarks" "id, url, title, user_id, created_at"
                            "created_at" false (backend w)) in
  let o := exec sv loadBookmarks w in
  remote_kinds (calls o) = [RSelect]
  /\ loading (state (world o)) = false
  /\ user (state (world o)) = user (state w)
  /\ url (state (world o)) = url (state w)
  /\ title (state (world o)) = title (state w)
  /\ match answer with
     | Success data =>
         bookmarks (state (world o)) = data /\ errorMsg (state (world o)) = None
     | Failure e =>
         bookmarks (state (world o)) = bookmarks (state w)
         /\ errorMsg (state (world o))
            = Some ("Failed to load bookmarks: " ++ message e)
     end.
Proof.
  cbv zeta.
  destruct (loadBookmarks_run sv w) as (Hkinds & _ & _ & _ & Hloading & Hresult).
  destruct (loadBookmarks_frame sv w) as (Huser & Hurl & Htitle & _).
  repeat split; assumption.
Qed.

(** X9: mounting without a session makes one remote call, the user query:
    no list query, no subscription.  The loading flag ends false and the
    sign-in page is rendered. *)
Theorem mount_without_session (w : World B) :
  fst (getUser sv (backend w)) = None ->
  let o := mount sv w in
  remote_kinds (calls o) = [RGetUser]
  /\ channels (world o) = channels w
  /\ user (state (world o)) = None
  /\ bookmarks (state (world o)) = bookmarks (state w)
  /\ loading (state (world o)) = false
  /\ is_signInPage (render (state (world o))) = true.
Proof.
  intros Huser. cbv zeta. rewrite (mount_signed_out sv w Huser).
  repeat split.
Qed.

(** X10: whatever the user query and the list query answer, a mount ends
    with the loading flag false, so the spinner is not what is rendered
    afterwards. *)
Theorem mount_ends_loading (w : World B) :
  let o := mount sv w in
  loading (state (world o)) = false
  /\ render (state (world o)) <> Spinner.
Proof.
  cbv zeta.
  assert (Hloading : loading (state (world (mount sv w))) = false).
  { destruct (fst (getUser sv (backend w))) as [u|] eqn:Huser.
    - rewrite (mount_signed_in sv w Huser). cbn.
      match goal with
      | |- context [exec sv loadBookmarks ?W] =>
          destruct (loadBookmarks_run sv W) as (_ & _ & _ & _ & Hl & _)
      end.
      exact Hl.
    - rewrite (mount_signed_out sv w Huser). reflexivity. }
  split; [exact Hloading|].
  unfold render. rewrite Hloading.
  destruct (user (state (world (mount sv w)))); discriminate.
Qed.

(** X11: when the user query answers a user and the list query fails, the
    subscription is opened all the same; the list is the one from before and
    the dashboard shows the load error. *)
Theorem mount_failed_load (w : World B) (u : User.t) (e : PostgrestError) :
  fst (getUser sv (backend w)) = Some u ->
  fst (select sv "bookmarks" "id, url, title, user_id, created_at" "created_at"
              false (snd (getUser sv (backend w)))) = Failure e ->
  let o := mount sv w in
  remote_kinds (calls o) = [RGetUser; RSelect; RSubscribe]
  /\ channels (world o) = (channels w ++ [(opened w, subscription_of u)])%list
  /\ bookmarks (state (world o)) = bookmarks (state w)
  /\ alert_in (render (state (world o)))
     = Some ("Failed to load bookmarks: " ++ message e)
  /\ listing_of (render (state (world o)))
     = Some (match bookmarks (state w) with
             | [] => EmptyState
             | _ :: _ => Grid (List.map card (bookmarks (state w)))
             end).
Proof.
  intros Huser Hrows. cbv zeta. rewrite (mount_signed_in sv w Huser). cbn.
  match goal with
  | |- context [exec sv loadBookmarks ?W] =>
      destruct (loadBookmarks_run sv W) as (Hkinds & _ & _ & _ & Hl & Hresult);
      destruct (loadBookmarks_frame sv W) as (Hu & _ & _ & Hch & Hop & _)
  end.
  cbn in Hresult, Hu, Hch, Hop. rewrite Hrows in Hresult.
  destruct Hresult as (Hlist & Hmsg).
  rewrite remote_kinds_app, Hkinds, Hch, Hop. cbn.
  split; [reflexivity|]. split; [reflexivity|]. split; [exact Hlist|].
  unfold render. rewrite Hl, Hu, Hmsg, Hlist.
  split; [reflexivity|]. cbn. destruct (bookmarks (state w)); reflexivity.
Qed.

(** X12: when the user query answers a user and the list query answers
    rows, the dashboard shows no alert and one card per row, in the order of
    the answer; with no row it shows the empty state. *)
Theorem mount_shows_rows (w : World B) (u : User.t) (data : list Bookmark.t) :
  fst (getUser sv (backend w)) = Some u ->
  fst (select sv "bookmarks" "id, url, title, user_id, created_at" "created_at"
              false (snd (getUser sv (backend w)))) = Success data ->
  let v := render (state (world (mount sv w))) in
  alert_in v = None
  /\ listing_of v = Some (match data with
                          | [] => EmptyState
                          | _ :: _ => Grid (List.map card data)
                          end).
Proof.
  intros Huser Hrows. cbv zeta. rewrite (mount_signed_in sv w Huser). cbn.
  match goal with
  | |- context [exec sv loadBookmarks ?W] =>
      destruct (loadBookmarks_run sv W) as (_ & _ & _ & _ & Hl & Hresult);
      destruct (loadBookmarks_frame sv W) as (Hu & _)
  end.
  cbn in Hresult, Hu. rewrite Hrows in Hresult. destruct Hresult as (Hlist & Hmsg).
  unfold render. rewrite Hl, Hu, Hmsg, Hlist.
  destruct data; split; reflexivity.
Qed.

(** X13: signing in makes one remote call, the OAuth request for provider
    [google] with the callback [{window origin}/auth/callback].  An error
    becomes the error message and the page stays; a link makes the window
    navigate to it; in no case are the user, the list, the inputs or the
    channels touched. *)
Theorem handleSignIn_outcome (w : World B) :
  let target := window_origin w ++ "/auth/callback" in
  let answer := fst (signInWithOAuth sv "google" target (backend w)) in
  let o := exec sv handleSignIn w in
  List.filter is_remote (calls o) = [call (SignInWithOAuth "google" target)]
  /\ user (state (world o)) = user (state w)
  /\ bookmarks (state (world o)) = bookmarks (state w)
  /\ url (state (world o)) = url (state w)
  /\ title (state (world o)) = title (state w)
  /\ channels (world o) = channels w
  /\ match oauth_error answer with
     | Some e =>
         errorMsg (state (world o)) = Some (auth_message e)
         /\ Env.href (world o) = Env.href w
     | None =>
         errorMsg (state (world o)) = errorMsg (state w)
         /\ Env.href (world o)
            = match oauth_url answer with
              | Some link => if truthy link then Some link else Env.href w
              | None => Env.href w
              end
     end.
Proof.
  cbv zeta. rewrite (handleSignIn_run sv w). cbv zeta.
  destruct (oauth_error (fst (signInWithOAuth sv "google" _ (backend w)))) as [e|].
  - repeat split.
  - destruct (oauth_url (fst (signInWithOAuth sv "google" _ (backend w))))
      as [[|a rest]|]; repeat split.
Qed.

Lemma submit_rows (w : World B) :
  let o := exec sv (handleAddBookmark (state w)) w in
  collect inserted_row (calls o)
  = match user (state w) with
    | Some u =>
        if truthy (url (state w)) && truthy (title (state w))
        then [row_of (state w) u]
        else []
    | None => []
    end.
Proof.
  cbv zeta. destruct (user (state w)) as [u|] eqn:Huser.
  - destruct (string_dec (url (state w)) "") as [Hurl | Hurl].
    { rewrite handleAddBookmark_blocked by (left; exact Hurl).
      rewrite (truthy_false Hurl). reflexivity. }
    destruct (string_dec (title (state w)) "") as [Htitle | Htitle].
    { rewrite handleAddBookmark_blocked by (right; left; exact Htitle).
      rewrite (truthy_false Htitle), andb_false_r. reflexivity. }
    rewrite (handleAddBookmark_run sv w Huser Hurl Htitle). cbv zeta.
    rewrite (truthy_true Hurl), (truthy_true Htitle). cbn [andb].
    destruct (fst (insert sv "bookmarks" _ (backend w))) as [e|].
    + reflexivity.
    + cbn [calls]. rewrite collect_app.
      rewrite (no_inserts sv _ (loadBookmarks_no_insert)). reflexivity.
  - rewrite handleAddBookmark_blocked by (right; right; exact Huser). reflexivity.
Qed.

(** X14: the rows a submit hands to [insert]: none when no user is known or
    an input is empty, otherwise exactly one, made of the two inputs as they
    are and of the identifier of the user. *)
Theorem handleAddBookmark_inserts (w : World B) :
  let o := exec sv (handleAddBookmark (state w)) w in
  collect inserted_row (calls o)
  = match user (state w) with
    | Some u =>
        if truthy (url (state w)) && truthy (title (state w))
        then [row_of (state w) u]
        else []
    | None => []
    end.
Proof. exact (submit_rows w). Qed.

(** X15: after a successful add the inputs are empty, so submitting again
    from the new render does nothing: no remote call, nothing changed. *)
Theorem add_success_then_resubmit (w : World B) (u : User.t) :
  user (state w) = Some u ->
  url (state w) <> "" ->
  title (state w) <> "" ->
  fst (insert sv "bookmarks" (row_of (state w) u) (backend w)) = None ->
  let first := exec sv (handleAddBookmark (state w)) w in
  let second := exec sv (handleAddBookmark (state (world first))) (world first) in
  remote_kinds (calls second) = []
  /\ world second = world first.
Proof.
  intros Huser Hurl Htitle Hok. cbv zeta.
  rewrite (handleAddBookmark_run sv w Huser Hurl Htitle). cbv zeta.
  rewrite Hok. cbn [world].
  match goal with
  | |- context [exec sv loadBookmarks ?W] =>
      destruct (loadBookmarks_frame sv W) as (_ & Hu & _)
  end.
  cbn in Hu. rewrite handleAddBookmark_blocked by (left; exact Hu).
  split; reflexivity.
Qed.

(** X16: after a successful add the list is what the list query answers
    from the backend as the insert left it; the new row is not added
    locally, so when that query fails the list is the one from before. *)
Theorem add_success_refetches (w : World B) (u : User.t) :
  user (state w) = Some u ->
  url (state w) <> "" ->
  title (state w) <> "" ->
  fst (insert sv "bookmarks" (row_of (state w) u) (backend w)) = None ->
  let left := snd (insert sv "bookmarks" (row_of (state w) u) (backend w)) in
  let o := exec sv (handleAddBookmark (state w)) w in
  match fst (select sv "bookmarks" "id, url, title, user_id, created_at"
                    "created_at" false left) with
  | Success data =>
      bookmarks (state (world o)) = data /\ errorMsg (state (world o)) = None
  | Failure e =>
      bookmarks (state (world o)) = bookmarks (state w)
      /\ errorMsg (state (world o)) = Some ("Failed to load bookmarks: " ++ message e)
  end.
Proof.
  intros Huser Hurl Htitle Hok. cbv zeta.
  rewrite (handleAddBookmark_run sv w Huser Hurl Htitle). cbv zeta.
  rewrite Hok. cbn [world].
  match goal with
  | |- context [exec sv loadBookmarks ?W] =>
      destruct (loadBookmarks_run sv W) as (_ & _ & _ & _ & _ & Hresult)
  end.
  exact Hresult.
Qed.

(** X17: after a rejected add nothing but the error message has changed, so
    submitting again hands the same row to [insert]. *)
Theorem add_failure_then_resubmit (w : World B) (u : User.t) (e : PostgrestError) :
  user (state w) = Some u ->
  url (state w) <> "" ->
  title (state w) <> "" ->
  fst (insert sv "bookmarks" (row_of (state w) u) (backend w)) = Some e ->
  let first := exec sv (handleAddBookmark (state w)) w in
  let second := exec sv (handleAddBookmark (state (world first))) (world first) in
  bookmarks (state (world first)) = bookmarks (state w)
  /\ collect inserted_row (calls first) = [row_of (state w) u]
  /\ collect inserted_row (calls second) = [row_of (state w) u].
Proof.
  intros Huser Hurl Htitle Hno. cbv zeta.
  rewrite (handleAddBookmark_run sv w Huser Hurl Htitle). cbv zeta.
  rewrite Hno. cbn [world calls].
  split; [reflexivity|]. split; [reflexivity|].
  match goal with
  | |- context [exec sv (handleAddBookmark (state ?W)) _] =>
      rewrite (@handleAddBookmark_run B sv W u Huser Hurl Htitle)
  end.
  cbv zeta.
  match goal with
  | |- context [match ?x with Some _ => _ | None => _ end] => destruct x
  end.
  - reflexivity.
  - cbn [calls]. rewrite collect_app.
    rewrite (no_inserts sv _ (loadBookmarks_no_insert)). reflexivity.
Qed.

(** X18: a delete that succeeds is followed by the list query, and the
    list becomes what that query answers from the backend as the delete left
    it; the row is not removed locally, so when the query fails the list is
    the one from before. *)
Theorem handleDeleteBookmark_success (w : World B) (id : Z) :
  fst (delete sv "bookmarks" "id" id (backend w)) = None ->
  let left := snd (delete sv "bookmarks" "id" id (backend w)) in
  let o := exec sv (handleDeleteBookmark id) w in
  remote_kinds (calls o) = [RDelete; RSelect]
  /\ match fst (select sv "bookmarks" "id, url, title, user_id, created_at"
                       "created_at" false left) with
     | Success data =>
         bookmarks (state (world o)) = data /\ errorMsg (state (world o)) = None
     | Failure e =>
         bookmarks (state (world o)) = bookmarks (state w)
         /\ errorMsg (state (world o))
            = Some ("Failed to load bookmarks: " ++ message e)
     end.
Proof.
  intros Hok. cbv zeta. rewrite (handleDeleteBookmark_run sv w id). cbv zeta.
  rewrite Hok. cbn [world calls].
  match goal with
  | |- context [exec sv loadBookmarks ?W] =>
      destruct (loadBookmarks_run sv W) as (Hkinds & _ & _ & _ & _ & Hresult)
  end.
  split; [cbn; rewrite Hkinds; reflexivity | exact Hresult].
Qed.

(** X19: the delete handler checks nothing locally: in every environment,
    signed in or not, with the row in the list or not, its first call is the
    remote delete of the given identifier, and it is the only delete. *)
Theorem handleDeleteBookmark_unguarded (w : World B) (id : Z) :
  let o := exec sv (handleDeleteBookmark id) w in
  List.hd_error (calls o) = Some (call (Delete "bookmarks" "id" id))
  /\ collect deleted_id (calls o) = [id].
Proof.
  cbv zeta. rewrite (handleDeleteBookmark_run sv w id). cbv zeta.
  destruct (fst (delete sv "bookmarks" "id" id (backend w))) as [e|].
  - split; reflexivity.
  - cbn [calls]. split; [reflexivity|]. cbn.
    match goal with
    | |- context [exec sv loadBookmarks ?W] =>
        destruct (loadBookmarks_run sv W) as (_ & Hdel & _)
    end.
    rewrite Hdel. reflexivity.
Qed.

(** X20: signing out makes one remote call and closes no channel; the
    inputs and the error message stay as they were. *)
Theorem handleSignOut_keeps (w : World B) :
  let o := exec sv handleSignOut w in
  remote_kinds (calls o) = [RSignOut]
  /\ channels (world o) = channels w
  /\ url (state (world o)) = url (state w)
  /\ title (state (world o)) = title (state w)
  /\ errorMsg (state (world o)) = errorMsg (state w).
Proof.
  cbv zeta. rewrite (handleSignOut_run sv w). repeat split.
Qed.

(** X21: a notification that reaches the subscription after a sign-out
    still runs the list query and stores the rows it answers, although no
    user is known; no view lists them. *)
Theorem notification_after_signOut
        (w : World B) (s : Subscription) (payload : Payload)
        (data : list Bookmark.t) :
  sub_callback s = onChange ->
  fst (select sv "bookmarks" "id, url, title, user_id, created_at" "created_at"
              false (snd (signOut sv (backend w)))) = Success data ->
  let out := exec sv handleSignOut w in
  let o := deliver sv payload s (world out) in
  remote_kinds (calls o) = [RSelect]
  /\ user (state (world o)) = None
  /\ bookmarks (state (world o)) = data
  /\ listing_of (render (state (world o))) = None.
Proof.
  intros Hcb Hrows. cbv zeta. rewrite (deliver_onChange sv payload s _ Hcb).
  rewrite (handleSignOut_run sv w). cbn [world].
  match goal with
  | |- context [exec sv loadBookmarks ?W] =>
      destruct (loadBookmarks_run sv W) as (Hkinds & _ & _ & _ & Hl & Hresult);
      destruct (loadBookmarks_frame sv W) as (Hu & _)
  end.
  cbn in Hresult, Hu. rewrite Hrows in Hresult. destruct Hresult as (Hlist & _).
  repeat split; try assumption.
  unfold render. rewrite Hl, Hu. reflexivity.
Qed.

#[local] Arguments handleDeleteBookmark : simpl never.

(** X22: every row of a rendered list has a card with its identifier as
    key, whose delete button deletes that identifier and no other. *)
Theorem card_deletes_its_row (s : State) (u : User.t) (bm : Bookmark.t) :
  loading s = false ->
  user s = Some u ->
  List.In bm (bookmarks s) ->
  exists cards,
    listing_of (render s) = Some (Grid cards)
    /\ List.In (card bm) cards
    /\ key (card bm) = Bookmark.id bm
    /\ forall w : World B,
         collect deleted_id (calls (exec sv (onDelete (card bm)) w))
         = [Bookmark.id bm].
Proof.
  intros Hl Hu Hin. exists (List.map card (bookmarks s)).
  split; [|split; [|split]].
  - unfold render. rewrite Hl, Hu. cbn.
    destruct (bookmarks s); [destruct Hin | reflexivity].
  - apply in_map. exact Hin.
  - reflexivity.
  - intros w. unfold exec, card, onDelete. cbn. rewrite run_detached. cbn.
    pose proof (handleDeleteBookmark_run sv w (Bookmark.id bm)) as Hrun.
    cbv zeta in Hrun. unfold exec in Hrun. rewrite Hrun.
    destruct (fst (delete sv "bookmarks" "id" (Bookmark.id bm) (backend w))) as [e|].
    + reflexivity.
    + cbn.
      match goal with
      | |- context [run (handle sv) loadBookmarks ?W] =>
          destruct (loadBookmarks_run sv W) as (_ & Hdel & _)
      end.
      unfold exec in Hdel. rewrite Hdel. reflexivity.
Qed.

End HandlerFacts.

(** ** Sessions *)

Section AvoidsWeaken.
Context {E : Type -> Type}.

Lemma avoids_weaken (bad bad' : Call E -> bool) (R : Type) (p : Prog E R) :
  (forall c, bad' c = true -> bad c = true) ->
  Avoids bad p -> Avoids bad' p.
Proof.
  intros Hsub. induction 1 as [r | X e k Hbad _ IH].
  - apply AvoidsRet.
  - apply AvoidsVis; [|exact IH].
    destruct (bad' (call e)) eqn:Hb; [|reflexivity].
    apply Hsub in Hb. congruence.
Qed.
End AvoidsWeaken.

Section SessionFacts.
Import Client Env Page Session.
Variable B : Type.
Variable sv : Services B.

#[local] Arguments String.append : simpl never.
#[local] Arguments loadBookmarks : simpl never.
#[local] Arguments detached : simpl never.

(** What a render offers for an action. *)
Lemma handler_of_render (s : State) (a : Action) (h : Prog clientE unit) :
  handler_of a (render s) = Some h ->
  (a = ClickSignIn /\ h = handleSignIn)
  \/ (a = ClickSignOut /\ h = handleSignOut)
  \/ (exists text, a = TypeUrl text /\ h = trigger (SetUrl text))
  \/ (exists text, a = TypeTitle text /\ h = trigger (SetTitle text))
  \/ (a = Submit /\ h = handleAddBookmark s /\ user s <> None)
  \/ (exists bm, a = ClickDelete (Bookmark.id bm) /\ List.In bm (bookmarks s)
                 /\ h = onDelete (card bm)).
Proof.
  unfold render. destruct (loading s); [destruct a; discriminate|].
  destruct (user s) as [u|] eqn:Hu.
  - destruct a; cbn; try discriminate.
    + intros [= <-]. right. left. split; reflexivity.
    + intros [= <-]. right. right. left. exists text. split; reflexivity.
    + intros [= <-]. right. right. right. left. exists text. split; reflexivity.
    + intros [= <-]. right. right. right. right. left.
      repeat split. discriminate.
    + destruct (Nat.eqb (List.length (bookmarks s)) 0); cbn; [discriminate|].
      destruct (List.find (fun c => Z.eqb (key c) id) (List.map card (bookmarks s)))
        as [c|] eqn:Hfind; cbn; [|discriminate].
      intros [= <-]. apply List.find_some in Hfind. destruct Hfind as (Hin & Hkey).
      apply List.in_map_iff in Hin. destruct Hin as (bm & <- & Hbm).
      apply Z.eqb_eq in Hkey. cbn in Hkey. subst id.
      right. right. right. right. right. exists bm. repeat split. exact Hbm.
  - destruct a; cbn; try discriminate.
    intros [= <-]. left. split; reflexivity.
Qed.
Lemma broadcast_avoids (bad : Call clientE -> bool) (payload : Payload)
      (subs : list (Channel * Subscription)) :
  Avoids bad loadBookmarks ->
  reloading subs ->
  Avoids bad (broadcast payload subs).
Proof.
  intros Hload. induction 1 as [|[c s] rest Hcb _ IH]; cbn.
  - apply AvoidsRet.
  - cbn in Hcb. rewrite Hcb. unfold onChange.
    apply avoids_bind; [apply avoids_detached; exact Hload | intros _; exact IH].
Qed.

Lemma handleSignIn_avoids (bad : Call clientE -> bool) :
  (forall X (e : clientE X),
      is_remote (call e) = false -> is_setUser (call e) = false ->
      bad (call e) = false) ->
  (forall a b, bad (call (SignInWithOAuth a b)) = false) ->
  Avoids bad handleSignIn.
Proof.
  intros Hlocal Hoauth. unfold handleSignIn. cbn.
  apply AvoidsVis; [apply Hlocal; reflexivity | intros o].
  apply AvoidsVis; [apply Hoauth | intros [link [e|]]]; cbn.
  - apply AvoidsVis; [apply Hlocal; reflexivity | intros _].
    apply AvoidsVis; [apply Hlocal; reflexivity | intros x]. apply AvoidsRet.
  - destruct link as [[|a rest]|]; try apply AvoidsRet.
    apply AvoidsVis; [apply Hlocal; reflexivity | intros x]. apply AvoidsRet.
Qed.

Lemma handleDeleteBookmark_avoids (bad : Call clientE -> bool) (id : Z) :
  (forall X (e : clientE X),
      is_remote (call e) = false -> is_setUser (call e) = false ->
      bad (call e) = false) ->
  bad (call (Delete "bookmarks" "id" id)) = false ->
  Avoids bad loadBookmarks ->
  Avoids bad (handleDeleteBookmark id).
Proof.
  intros Hlocal Hdelete Hload. unfold handleDeleteBookmark. cbn.
  apply AvoidsVis; [exact Hdelete | intros [e|]]; cbn.
  - apply AvoidsVis; [apply Hlocal; reflexivity | intros _].
    apply AvoidsVis; [apply Hlocal; reflexivity | intros x]. apply AvoidsRet.
  - apply avoids_detached. exact Hload.
Qed.

Lemma handleAddBookmark_avoids (bad : Call clientE -> bool) (s : State) :
  (forall X (e : clientE X),
      is_remote (call e) = false -> is_setUser (call e) = false ->
      bad (call e) = false) ->
  (forall row, bad (call (Insert "bookmarks" row)) = false) ->
  Avoids bad loadBookmarks ->
  Avoids bad (handleAddBookmark s).
Proof.
  intros Hlocal Hinsert Hload. unfold handleAddBookmark. cbn.
  apply AvoidsVis; [apply Hlocal; reflexivity | intros _].
  destruct (negb (truthy (url s)) || negb (truthy (title s))
            || negb (is_some (user s))); [apply AvoidsRet|].
  destruct (user s) as [u|]; [|apply AvoidsRet]. cbn.
  apply AvoidsVis; [apply Hlocal; reflexivity | intros _].
  apply AvoidsVis; [apply Hinsert | intros [e|]]; cbn.
  - apply AvoidsVis; [apply Hlocal; reflexivity | intros _].
    apply AvoidsVis; [apply Hlocal; reflexivity | intros x]. apply AvoidsRet.
  - apply AvoidsVis; [apply Hlocal; reflexivity | intros _].
    apply AvoidsVis; [apply Hlocal; reflexivity | intros _].
    apply avoids_detached. exact Hload.
Qed.

Lemma handleSignOut_avoids (bad : Call clientE -> bool) :
  bad (call SignOut) = false ->
  bad (call (SetUser None)) = false ->
  bad (call (SetBookmarks [])) = false ->
  Avoids bad handleSignOut.
Proof.
  intros H1 H2 H3. unfold handleSignOut. cbn.
  apply AvoidsVis; [exact H1 | intros _].
  apply AvoidsVis; [exact H2 | intros _].
  apply AvoidsVis; [exact H3 | intros x]. apply AvoidsRet.
Qed.

(** Outside a mount, no action subscribes or removes a channel. *)
Lemma program_of_no_channel_op (a : Action) (w : World B) :
  is_mount a = false ->
  reloading (channels w) ->
  Avoids is_channel_op (program_of a w).
Proof.
  intros Hmount Hsubs.
  assert (Hlocal : forall X (e : clientE X),
             is_remote (call e) = false -> is_setUser (call e) = false ->
             is_channel_op (call e) = false).
  { intros X e. destruct e; cbn; congruence. }
  destruct a; try discriminate Hmount;
    try (apply broadcast_avoids; [apply loadBookmarks_no_channel_op | exact Hsubs]);
    try (cbn; apply AvoidsVis; [reflexivity | intros x; apply AvoidsRet]);
    unfold program_of; (destruct (mounted w); [|apply AvoidsRet]);
    match goal with
    | |- context [handler_of ?a ?v] =>
        destruct (handler_of a v) as [h|] eqn:Hh; [|apply AvoidsRet]
    end;
    apply handler_of_render in Hh;
    destruct Hh as [(Ha & ->) | [(Ha & ->) | [(t & Ha & ->) | [(t & Ha & ->)
                   | [(Ha & -> & _) | (bm & Ha & _ & ->)]]]]];
    try discriminate Ha.
  - apply handleSignIn_avoids; [exact Hlocal | reflexivity].
  - apply handleSignOut_avoids; reflexivity.
  - apply AvoidsVis; [reflexivity | intros x; apply AvoidsRet].
  - apply AvoidsVis; [reflexivity | intros x; apply AvoidsRet].
  - apply handleAddBookmark_avoids;
      [exact Hlocal | reflexivity | apply loadBookmarks_no_channel_op].
  - unfold card, onDelete. cbn.
    apply AvoidsVis; [reflexivity | intros _]. apply avoids_detached.
    apply handleDeleteBookmark_avoids;
      [exact Hlocal | reflexivity | apply loadBookmarks_no_channel_op].
Qed.
Lemma filter_none_weaken (A : Type) (f g : A -> bool) (l : list A) :
  (forall x, g x = true -> f x = true) ->
  List.filter f l = [] -> List.filter g l = [].
Proof.
  intros Hsub. induction l as [|x l IH]; cbn; [reflexivity|].
  destruct (f x) eqn:Hf; [discriminate|]. intros Hnone.
  destruct (g x) eqn:Hg; [apply Hsub in Hg; congruence | apply IH; exact Hnone].
Qed.

(** What one action does to the channels: it removes none, and the ones it
    leaves open have the callback of the mount effect. *)
Lemma perform_channels (a : Action) (w : World B) :
  reloading (channels w) ->
  let o := perform sv a w in
  List.filter is_removeChannel (calls o) = []
  /\ reloading (channels (world o)).
Proof.
  intros Hsubs. cbv zeta.
  assert (Hweak : forall c, is_removeChannel c = true -> is_channel_op c = true).
  { intros c Hc. unfold is_channel_op. rewrite Hc. apply orb_true_r. }
  destruct (is_mount a) eqn:Hmount.
  - destruct a; try discriminate Hmount. unfold perform. cbn [program_of arrive].
    change (exec sv (setup effect) (with_state w initial))
      with (mount sv (with_state w initial)).
    destruct (fst (getUser sv (backend w))) as [u|] eqn:Huser.
    + rewrite (@mount_signed_in B sv (with_state w initial) u Huser). cbn.
      match goal with
      | |- context [exec sv loadBookmarks ?W] =>
          destruct (loadBookmarks_frame sv W) as (_ & _ & _ & Hch & _);
          pose proof (avoids_calls (handle sv) loadBookmarks_no_channel_op W) as Hnone
      end.
      cbn in Hch. unfold exec in *.
      assert (Hrm := filter_none_weaken is_channel_op is_removeChannel _ Hweak Hnone).
      rewrite !filter_app, Hrm, Hch. cbn.
      split; [reflexivity|]. apply Forall_app. split; [exact Hsubs|].
      constructor; [reflexivity | constructor].
    + rewrite (@mount_signed_out B sv (with_state w initial) Huser). cbn.
      split; [reflexivity | exact Hsubs].
  - pose proof (program_of_no_channel_op a w Hmount Hsubs) as Havoid.
    unfold perform.
    assert (Harrive : arrive a w = w) by (destruct a; try reflexivity; discriminate).
    rewrite Harrive.
    pose proof (avoids_calls (handle sv) Havoid w) as Hnone.
    pose proof (keeps_channels sv w Havoid) as Hch.
    unfold exec in *.
    split; [exact (filter_none_weaken is_channel_op is_removeChannel _ Hweak Hnone)|].
    rewrite Hch. exact Hsubs.
Qed.

Lemma session_channels (actions : list Action) (w : World B) :
  reloading (channels w) ->
  let o := session sv actions w in
  List.filter is_removeChannel (calls o) = []
  /\ reloading (channels (world o)).
Proof.
  revert w. induction actions as [|a rest IH]; intros w Hsubs; cbn.
  - split; [reflexivity | exact Hsubs].
  - destruct (perform_channels a w Hsubs) as (Hrm & Hsubs').
    destruct (IH _ Hsubs') as (Hrm' & Hre').
    split; [rewrite filter_app, Hrm, Hrm'; reflexivity | exact Hre'].
Qed.

(** X23: in a session started with only channels opened by the mount
    effect, no action ever calls [removeChannel]: not unmounting, not
    signing out, not a notification. *)
Theorem session_never_closes_a_channel (actions : list Action) (w : World B) :
  reloading (channels w) ->
  List.filter is_removeChannel (calls (session sv actions w)) = [].
Proof.
  intros Hsubs. exact (proj1 (session_channels actions w Hsubs)).
Qed.

Lemma rows_forall_app (P : NewBookmark -> Prop) (xs ys : list (Call clientE)) :
  List.Forall P (collect inserted_row xs) ->
  List.Forall P (collect inserted_row ys) ->
  List.Forall P (collect inserted_row (xs ++ ys)).
Proof.
  intros Hx Hy. rewrite collect_app. apply Forall_app. split; assumption.
Qed.

(** What one action does to the user and which rows it inserts, when the
    user query only ever answers users with identifier [uid]. *)
Lemma perform_user (uid : string) (a : Action) (w : World B) :
  (forall (b : B) (u : User.t), fst (getUser sv b) = Some u -> User.id u = uid) ->
  reloading (channels w) ->
  (forall u, user (state w) = Some u -> User.id u = uid) ->
  let o := perform sv a w in
  (forall u, user (state (world o)) = Some u -> User.id u = uid)
  /\ List.Forall (fun row => new_user_id row = uid)
                 (collect inserted_row (calls o)).
Proof.
  intros Hsv Hsubs Hinv. cbv zeta.
  assert (Hquiet : forall p : Prog clientE unit,
             Avoids is_setUser p -> Avoids is_insert p ->
             (forall u, user (state (world (exec sv p w))) = Some u -> User.id u = uid)
             /\ List.Forall (fun row => new_user_id row = uid)
                            (collect inserted_row (calls (exec sv p w)))).
  { intros p Hu Hi. rewrite (keeps_user sv w Hu), (no_inserts sv w Hi).
    split; [exact Hinv | constructor]. }
  assert (HlocalU : forall X (e : clientE X),
             is_remote (call e) = false -> is_setUser (call e) = false ->
             is_setUser (call e) = false) by (intros; assumption).
  assert (HlocalI : forall X (e : clientE X),
             is_remote (call e) = false -> is_setUser (call e) = false ->
             is_insert (call e) = false).
  { intros X e. destruct e; cbn; congruence. }
  destruct (is_mount a) eqn:Hmount.
  - destruct a; try discriminate Hmount. unfold perform. cbn [program_of arrive].
    change (exec sv (setup effect) (with_state w initial))
      with (mount sv (with_state w initial)).
    destruct (fst (getUser sv (backend w))) as [u|] eqn:Huser.
    + rewrite (@mount_signed_in B sv (with_state w initial) u Huser). cbn.
      match goal with
      | |- context [exec sv loadBookmarks ?W] =>
          destruct (loadBookmarks_frame sv W) as (Hu & _);
          pose proof (no_inserts sv W loadBookmarks_no_insert) as Hrows
      end.
      cbn in Hu. rewrite Hu. split.
      * intros u' [= <-]. exact (Hsv _ _ Huser).
      * rewrite collect_app, Hrows. cbn. constructor.
    + rewrite (@mount_signed_out B sv (with_state w initial) Huser). cbn.
      split; [discriminate | constructor].
  - unfold perform.
    assert (Harrive : arrive a w = w) by (destruct a; try reflexivity; discriminate).
    rewrite Harrive.
    destruct a; try discriminate Hmount;
      try (apply Hquiet; apply broadcast_avoids;
           solve [apply loadBookmarks_no_setUser | apply loadBookmarks_no_insert
                 | exact Hsubs]);
      try (apply Hquiet; cbn;
           apply AvoidsVis; solve [reflexivity | intros x; apply AvoidsRet]);
      unfold program_of;
      (destruct (mounted w);
       [|apply Hquiet; apply AvoidsRet]);
      match goal with
      | |- context [handler_of ?a ?v] =>
          destruct (handler_of a v) as [h|] eqn:Hh; [|apply Hquiet; apply AvoidsRet]
      end;
      apply handler_of_render in Hh;
      destruct Hh as [(Ha & ->) | [(Ha & ->) | [(t & Ha & ->) | [(t & Ha & ->)
                     | [(Ha & -> & _) | (bm & Ha & _ & ->)]]]]];
      try discriminate Ha.
    + apply Hquiet; apply handleSignIn_avoids;
        solve [assumption | reflexivity].
    + rewrite (handleSignOut_run sv w). cbn.
      split; [discriminate | constructor].
    + apply Hquiet; (apply AvoidsVis; [reflexivity | intros x; apply AvoidsRet]).
    + apply Hquiet; (apply AvoidsVis; [reflexivity | intros x; apply AvoidsRet]).
    + split.
      * rewrite keeps_user; [exact Hinv|].
        apply handleAddBookmark_avoids;
          [exact HlocalU | reflexivity | apply loadBookmarks_no_setUser].
      * rewrite (submit_rows sv w).
        destruct (user (state w)) as [u|] eqn:Hu; [|constructor].
        destruct (truthy (url (state w)) && truthy (title (state w)));
          [|constructor].
        constructor; [|constructor]. cbn. apply Hinv. reflexivity.
    + apply Hquiet; unfold card, onDelete; cbn;
        (apply AvoidsVis; [reflexivity | intros _]); apply avoids_detached;
        apply handleDeleteBookmark_avoids;
        solve [assumption | reflexivity | apply loadBookmarks_no_setUser
              | apply loadBookmarks_no_insert].
Qed.

(** X26: when the user query only ever answers users with one identifier,
    every row a session hands to [insert] carries that identifier, whatever
    the actions are and whatever the backend answers otherwise. *)
Theorem inserts_carry_the_signed_in_user
        (uid : string) (actions : list Action) (w : World B) :
  (forall (b : B) (u : User.t), fst (getUser sv b) = Some u -> User.id u = uid) ->
  reloading (channels w) ->
  (forall u, user (state w) = Some u -> User.id u = uid) ->
  List.Forall (fun row => new_user_id row = uid)
              (collect inserted_row (calls (session sv actions w))).
Proof.
  intros Hsv. revert w. induction actions as [|a rest IH]; intros w Hsubs Hinv; cbn.
  - constructor.
  - destruct (perform_user a w Hsv Hsubs Hinv) as (Hinv' & Hrows).
    destruct (perform_channels a w Hsubs) as (_ & Hsubs').
    apply rows_forall_app; [exact Hrows|].
    apply IH; [exact Hsubs' | exact Hinv'].
Qed.

Lemma perform_typing (w : World B) (a : Action) (h : Prog clientE unit) :
  mounted w = true ->
  handler_of a (render (state w)) = Some h ->
  is_mount a = false ->
  (forall payload, a <> Notify payload) ->
  a <> Unmount ->
  perform sv a w = exec sv h w.
Proof.
  intros Hm Hh Hmount Hnotify Hun. unfold perform.
  destruct a; try discriminate Hmount; try (exfalso; apply Hun; reflexivity);
    try (exfalso; eapply Hnotify; reflexivity);
    cbn [arrive]; unfold program_of; rewrite Hm, Hh; reflexivity.
Qed.

(** X27: on the dashboard, typing an address and a title and submitting
    hands exactly one row to [insert], made of the two texts as typed:
    nothing is trimmed and no scheme is put in front of the address. *)
Theorem typed_text_is_inserted
        (w : World B) (u : User.t) (address name : string) :
  mounted w = true ->
  loading (state w) = false ->
  user (state w) = Some u ->
  address <> "" ->
  name <> "" ->
  collect inserted_row
          (calls (session sv [TypeUrl address; TypeTitle name; Submit] w))
  = [{| new_url := address; new_title := name; new_user_id := User.id u |}].
Proof.
  intros Hm Hl Hu Ha Hn. cbn [session].
  assert (H1 : perform sv (TypeUrl address) w = exec sv (trigger (SetUrl address)) w).
  { apply (perform_typing w);
      [exact Hm | unfold render; rewrite Hl, Hu; reflexivity | reflexivity
      | intros payload; discriminate | discriminate]. }
  rewrite H1. cbn [exec run trigger value world calls handle].
  match goal with
  | |- context [perform sv (TypeTitle name) ?W] =>
      assert (H2 : perform sv (TypeTitle name) W = exec sv (trigger (SetTitle name)) W)
  end.
  { apply perform_typing;
      [exact Hm | unfold render; cbn; rewrite Hl, Hu; reflexivity | reflexivity
      | intros payload; discriminate | discriminate]. }
  rewrite H2. cbn [exec run trigger value world calls handle].
  match goal with
  | |- context [perform sv Submit ?W] =>
      assert (H3 : perform sv Submit W = exec sv (handleAddBookmark (state W)) W)
  end.
  { apply perform_typing;
      [exact Hm | unfold render; cbn; rewrite Hl, Hu; reflexivity | reflexivity
      | intros payload; discriminate | discriminate]. }
  rewrite H3. cbn [calls app]. rewrite ?app_nil_r.
  cbn [collect inserted_row projT2 call].
  rewrite submit_rows. cbn. rewrite Hu, (truthy_true Ha), (truthy_true Hn).
  reflexivity.
Qed.
End SessionFacts.

(** ** The facts above on sample runs *)

Section SampleRuns.
Import Client Env Page Session Claims Samples.

Lemma mount_without_session_witness :
  remote_kinds (calls (mount scripted (fresh initial anonymous))) = [RGetUser].
Proof.
  apply (mount_without_session scripted (fresh initial anonymous)). reflexivity.
Defined.

Lemma mount_failed_load_witness :
  alert_in (render (state (world (mount scripted (fresh initial offline)))))
  = Some "Failed to load bookmarks: fetch failed".
Proof.
  apply (mount_failed_load scripted (fresh initial offline)
                           (u := alice) (e := {| message := "fetch failed" |}));
    reflexivity.
Defined.

Lemma mount_shows_rows_witness :
  listing_of (render (state (world (mount scripted (fresh initial healthy)))))
  = Some (Grid [card rocq_site; card next_site]).
Proof.
  apply (mount_shows_rows scripted (fresh initial healthy)
                          (u := alice) (data := [rocq_site; next_site]));
    reflexivity.
Defined.

Lemma add_success_then_resubmit_witness :
  let w := dashboard [next_site] "https://rocq-prover.org" "Rocq" healthy in
  let first := exec scripted (handleAddBookmark (state w)) w in
  remote_kinds (calls (exec scripted (handleAddBookmark (state (world first)))
                            (world first)))
  = [].
Proof.
  cbv zeta.
  apply (add_success_then_resubmit scripted
           (dashboard [next_site] "https://rocq-prover.org" "Rocq" healthy)
           (u := alice)).
  - reflexivity.
  - discriminate.
  - discriminate.
  - reflexivity.
Defined.

Lemma add_success_refetches_witness :
  let w := dashboard [next_site] "https://rocq-prover.org" "Rocq" healthy in
  bookmarks (state (world (exec scripted (handleAddBookmark (state w)) w)))
  = [rocq_site; next_site].
Proof.
  cbv zeta.
  apply (add_success_refetches scripted
           (dashboard [next_site] "https://rocq-prover.org" "Rocq" healthy)
           (u := alice)).
  - reflexivity.
  - discriminate.
  - discriminate.
  - reflexivity.
Defined.

Lemma add_failure_then_resubmit_witness :
  let w := dashboard [next_site] "https://rocq-prover.org" "Rocq" rejecting in
  let first := exec scripted (handleAddBookmark (state w)) w in
  collect inserted_row
          (calls (exec scripted (handleAddBookmark (state (world first)))
                       (world first)))
  = [{| new_url := "https://rocq-prover.org"; new_title := "Rocq";
        new_user_id := "7c9e6679" |}].
Proof.
  cbv zeta.
  apply (add_failure_then_resubmit scripted
           (dashboard [next_site] "https://rocq-prover.org" "Rocq" rejecting)
           (u := alice) (e := denied)).
  - reflexivity.
  - discriminate.
  - discriminate.
  - reflexivity.
Defined.

Lemma handleDeleteBookmark_success_witness :
  remote_kinds (calls (exec scripted (handleDeleteBookmark 1)
                            (dashboard [rocq_site; next_site] "" "" healthy)))
  = [RDelete; RSelect].
Proof.
  apply (handleDeleteBookmark_success scripted
           (dashboard [rocq_site; next_site] "" "" healthy) 1).
  reflexivity.
Defined.

Lemma notification_after_signOut_witness :
  let w := dashboard [rocq_site] "" "" healthy in
  let out := exec scripted handleSignOut w in
  let o := deliver scripted {| eventType := INSERT; new_row := Some next_site;
                               old_row := None |}
                   (subscription_of alice) (world out) in
  user (state (world o)) = None
  /\ bookmarks (state (world o)) = [rocq_site; next_site].
Proof.
  cbv zeta.
  destruct (notification_after_signOut scripted
              (dashboard [rocq_site] "" "" healthy) (subscription_of alice)
              {| eventType := INSERT; new_row := Some next_site; old_row := None |}
              (data := [rocq_site; next_site]) eq_refl eq_refl)
    as (_ & Huser & Hlist & _).
  split; [exact Huser | exact Hlist].
Defined.

Lemma card_deletes_its_row_witness :
  collect deleted_id
          (calls (exec scripted (onDelete (card next_site))
                       (dashboard [rocq_site; next_site] "" "" rejecting)))
  = [1%Z].
Proof.
  destruct (@card_deletes_its_row Script scripted
              (typing (Some alice) [rocq_site; next_site] "" "")
              alice next_site eq_refl eq_refl (or_intror (or_introl eq_refl)))
    as (cards & _ & _ & _ & Hdelete).
  apply Hdelete.
Defined.

Lemma session_never_closes_a_channel_witness :
  List.filter is_removeChannel
              (calls (session scripted [Mount; ClickSignOut; Unmount; Mount]
                              (fresh initial healthy)))
  = [].
Proof.
  apply (session_never_closes_a_channel scripted
           [Mount; ClickSignOut; Unmount; Mount] (fresh initial healthy)).
  constructor.
Defined.

Lemma inserts_carry_the_signed_in_user_witness :
  List.Forall (fun row => new_user_id row = "7c9e6679")
              (collect inserted_row
                       (calls (session signed_in
                                       [Mount; TypeUrl "rocq-prover.org";
                                        TypeTitle "Rocq"; Submit; ClickSignOut;
                                        Submit]
                                       (fresh initial healthy)))).
Proof.
  apply (@inserts_carry_the_signed_in_user Script signed_in "7c9e6679"
           [Mount; TypeUrl "rocq-prover.org"; TypeTitle "Rocq"; Submit;
            ClickSignOut; Submit]
           (fresh initial healthy)).
  - intros b u [= <-]. reflexivity.
  - constructor.
  - intros u. discriminate.
Defined.

Lemma typed_text_is_inserted_witness :
  collect inserted_row
          (calls (session scripted
                          [TypeUrl " example.com "; TypeTitle "Example"; Submit]
                          (dashboard [] "" "" healthy)))
  = [{| new_url := " example.com "; new_title := "Example";
        new_user_id := "7c9e6679" |}].
Proof.
  apply (typed_text_is_inserted scripted (dashboard [] "" "" healthy) (u := alice)).
  - reflexivity.
  - reflexivity.
  - reflexivity.
  - discriminate.
  - discriminate.
Defined.

End SampleRuns.
